(** * The torchserve image transformer of the KServe samples

    A shallow embedding of
    [docs/samples/v1beta1/transformer/torchserve_image_transformer/image_transformer/image_transformer.py]:
    the normalizer [image_transform], the transformer object
    [ImageTransformer] with its hooks [preprocess], [postprocess] and
    [explain], and the properties the specification states about them.

    Python dictionaries are mutable objects that the code updates in place
    and hands on by reference, so dictionaries live in a store and values
    hold references to them.  Exceptions, the log and the outbound HTTP
    traffic are threaded through a state-and-exception monad.  What the
    program takes from libraries (base64, PIL, json, the HTTP client, float
    arithmetic) is an interface the development is parametric in. *)

From Stdlib Require Import ZArith QArith String Ascii List Lia.
From Stdlib.Strings Require Import Byte.
From stdpp Require Import base option gmap strings list fin_maps pretty.

Set Warnings "-register-all".

Local Open Scope Z_scope.
Local Open Scope string_scope.

(** ** Python values and the store of dictionaries *)

Definition loc := positive.

(** The JSON-shaped fragment of Python values.  A [VDict] is a reference:
    two occurrences of the same reference are the same dictionary. Lists are
    never mutated by the program and are kept as plain lists. *)
Inductive value {F : Type} : Type :=
  | VNone
  | VBool (b : bool)
  | VInt (z : Z)
  | VFloat (x : F)
  | VStr (s : string)
  | VList (l : list value)
  | VDict (r : loc).
Arguments value : clear implicits.

Definition bytes := list byte.

(** ** Exceptions *)

Inductive exn : Type :=
  | KeyError (key : string)
  | TypeError
  | ValueError
  | binascii_Error
  | UnidentifiedImageError
  | AttributeError
  | RuntimeError
  | ReferenceError
  | NotImplementedError
  | HTTPError (status_code : Z) (reason : string)
  | JSONDecodeError
  | HTTPClientError (info : string).

(** The exceptions of the decoding steps of the normalizer: those of the
    base64 decoder ([binascii.Error], which is a [ValueError], and the plain
    [ValueError] that [base64.b64decode] raises for a string that is not
    ASCII) and the one of PIL. *)
Definition decode_error (e : exn) : bool :=
  match e with
  | ValueError | binascii_Error | UnidentifiedImageError => true
  | _ => false
  end.

Inductive outcome (A : Type) : Type :=
  | Returns (a : A)
  | Raises (e : exn).
Arguments Returns {A} a.
Arguments Raises {A} e.

(** ** Outbound HTTP *)

Record HTTPRequest := {
  url : string;
  method : string;
  request_timeout : Z;
  body : string;
  headers : option (gmap string string)
}.

Record HTTPResponse := {
  code : Z;
  response_body : string
}.

(** ** The world the program runs in *)

(** A call to [logging.info]: its message, its arguments and the store at
    the time of the call, which is what a dictionary passed as the message
    is printed from. *)
Inductive log_record {F : Type} : Type :=
  | info (msg : value F) (args : list (value F))
         (store : gmap loc (gmap string (value F))).
Arguments log_record : clear implicits.

Record world {F : Type} := {
  heap : gmap loc (gmap string (value F));
  log : list (log_record F);
  sent : list HTTPRequest
}.
Arguments world : clear implicits.

(** ** The state-and-exception monad *)

Definition M (F A : Type) : Type := world F -> outcome A * world F.

Definition ret {F A} (a : A) : M F A := fun w => (Returns a, w).

Definition raise {F A} (e : exn) : M F A := fun w => (Raises e, w).

Definition bind {F A B} (m : M F A) (k : A -> M F B) : M F B :=
  fun w =>
    match m w with
    | (Returns a, w') => k a w'
    | (Raises e, w') => (Raises e, w')
    end.

Declare Scope py_scope.
Delimit Scope py_scope with py.
Notation "x <- c1 ;; c2" := (bind c1 (fun x => c2))
  (at level 100, c1 at next level, right associativity) : py_scope.
Notation "c1 ;; c2" := (bind c1 (fun _ => c2))
  (at level 100, right associativity) : py_scope.
Local Open Scope py_scope.

(** [[f(x) for x in xs]]: the elements are visited in order, the first
    exception ends the comprehension. *)
Fixpoint comprehension {F A B} (f : A -> M F B) (xs : list A) : M F (list B) :=
  match xs with
  | [] => ret []
  | x :: xs' =>
      y <- f x ;;
      ys <- comprehension f xs' ;;
      ret (y :: ys)
  end.

(** A library call that either returns or raises, without touching the
    world. *)
Definition lift {F A} (o : outcome A) : M F A := fun w => (o, w).

(** ** What the program takes from libraries *)

(** Float arithmetic of the tensor library.  The development never looks
    inside: a product of the program is the same expression over these
    operations whatever the rounding. *)
Class FloatOps (F : Type) := {
  f_of_Z : Z -> F;
  f_of_Q : Q -> F;
  fsub : F -> F -> F;
  fdiv : F -> F -> F
}.

(** A decoded PIL image, for the modes whose bands are 8-bit samples: the
    mode, the size as (width, height) and the samples as rows of pixels of
    bands, which is the layout [numpy.array(pic)] has. *)
Inductive Mode := L | P | LA | RGB | YCbCr | LAB | HSV | RGBA | CMYK.

Definition getbands (m : Mode) : list string :=
  match m with
  | L => ["L"]
  | P => ["P"]
  | LA => ["L"; "A"]
  | RGB => ["R"; "G"; "B"]
  | YCbCr => ["Y"; "Cb"; "Cr"]
  | LAB => ["L"; "A"; "B"]
  | HSV => ["H"; "S"; "V"]
  | RGBA => ["R"; "G"; "B"; "A"]
  | CMYK => ["C"; "M"; "Y"; "K"]
  end.

Record Image := {
  im_mode : Mode;
  im_size : nat * nat;
  im_pixels : list (list (list Z))
}.

(** The image has the shape its size and mode announce and 8-bit samples. *)
Definition Image_wf (pic : Image) : bool :=
  (length (im_pixels pic) =? snd (im_size pic))%nat
  && forallb (fun row =>
       (length row =? fst (im_size pic))%nat
       && forallb (fun px =>
            (length px =? length (getbands (im_mode pic)))%nat
            && forallb (fun v => Z.leb 0 v && Z.leb v 255) px) row)
     (im_pixels pic).

(** The tree [json.loads] builds.  Nothing else refers to it, so it is kept
    as a term rather than in the store. *)
Inductive json {F : Type} : Type :=
  | JNull
  | JBool (b : bool)
  | JInt (z : Z)
  | JFloat (x : F)
  | JStr (s : string)
  | JArr (l : list json)
  | JObj (l : list (string * json)).
Arguments json : clear implicits.

(** The library functions the program calls.  [a2b_base64] is the decoder
    behind [base64.b64decode] ([None]: it raises [binascii.Error]);
    [Image_open] is [PIL.Image.open] on a byte buffer together with the
    loading of the pixels, which PIL defers to the first access ([None]: the
    bytes are not an image it can read); [json_dumps] reads a value through
    the store; [fetch] is the HTTP client of the hosting framework,
    [self._http_client.fetch], seen as the upstream's answer to a request. *)
Class Libs (F : Type) := {
  a2b_base64 : string -> option bytes;
  Image_open : bytes -> option Image;
  json_dumps : gmap loc (gmap string (value F)) -> value F -> outcome string;
  json_loads : string -> option (json F);
  fetch : HTTPRequest -> outcome HTTPResponse
}.

(** ** Dictionaries, iteration, logging, HTTP *)

Section Primitives.
Context {F : Type}.

(** [d[k]]: only a dictionary can be subscripted with a string.  A
    reference to nothing does not arise in Python; it is given an outcome
    of its own so that the functions are total. *)
Definition getitem (d : value F) (k : string) : M F (value F) := fun w =>
  match d with
  | VDict r =>
      match heap w !! r with
      | Some o =>
          match o !! k with
          | Some v => (Returns v, w)
          | None => (Raises (KeyError k), w)
          end
      | None => (Raises ReferenceError, w)
      end
  | _ => (Raises TypeError, w)
  end.

(** [d[k] = v], in place. *)
Definition setitem (d : value F) (k : string) (v : value F) : M F unit := fun w =>
  match d with
  | VDict r =>
      match heap w !! r with
      | Some o =>
          (Returns tt,
           {| heap := <[r := <[k := v]> o]> (heap w); log := log w; sent := sent w |})
      | None => (Raises ReferenceError, w)
      end
  | _ => (Raises TypeError, w)
  end.

(** A dictionary display [{k: v, ...}]: a new object. *)
Definition new_dict (o : gmap string (value F)) : M F (value F) := fun w =>
  let r := fresh (dom (heap w)) in
  (Returns (VDict r),
   {| heap := <[r := o]> (heap w); log := log w; sent := sent w |}).

(** What a [for] clause iterates over: the elements of a list, the
    characters of a string, the keys of a dictionary. *)
Definition iter (v : value F) : M F (list (value F)) := fun w =>
  match v with
  | VList l => (Returns l, w)
  | VStr s => (Returns (map (fun c => VStr (String c "")) (list_ascii_of_string s)), w)
  | VDict r =>
      match heap w !! r with
      | Some o => (Returns (map (fun kv => VStr (fst kv)) (map_to_list o)), w)
      | None => (Raises ReferenceError, w)
      end
  | _ => (Raises TypeError, w)
  end.

Definition logging_info (msg : value F) (args : list (value F)) : M F unit := fun w =>
  (Returns tt,
   {| heap := heap w; log := log w ++ [info msg args (heap w)]; sent := sent w |}).

Definition str_or_None (o : option string) : value F :=
  match o with
  | Some s => VStr s
  | None => VNone
  end.
End Primitives.

(** [fmt.format(args)] for templates whose fields are [{0}] to [{9}]. *)
Definition field_index (c : ascii) : option nat :=
  let n := nat_of_ascii c in
  if (48 <=? n)%nat && (n <=? 57)%nat then Some (n - 48)%nat else None.

Fixpoint format (fmt : string) (args : list string) : string :=
  match fmt with
  | EmptyString => EmptyString
  | String c rest =>
      match c, rest with
      | "{"%char, String d (String "}"%char rest') =>
          match field_index d with
          | Some i => nth i args "" ++ format rest' args
          | None => String c (format rest args)
          end
      | _, _ => String c (format rest args)
      end
  end.

(** ** torchvision.transforms *)

Section Transforms.
Context {F : Type} {fl : FloatOps F}.

(** A float tensor of shape C x H x W. *)
Definition Tensor := list (list (list F)).

(** What a transform is applied to. *)
Inductive transform_arg :=
  | PILImage (pic : Image)
  | TorchTensor (t : Tensor).

(** [ToTensor] on a PIL image of an 8-bit mode: the H x W x C samples
    become a C x H x W tensor, each sample divided by 255. *)
Definition to_tensor (pic : Image) : Tensor :=
  map (fun c =>
         map (fun row => map (fun px => fdiv (f_of_Z (nth c px 0)) (f_of_Z 255)) row)
             (im_pixels pic))
      (seq 0 (length (getbands (im_mode pic)))).

Definition ToTensor (x : transform_arg) : outcome transform_arg :=
  match x with
  | PILImage pic => Returns (TorchTensor (to_tensor pic))
  | TorchTensor _ => Raises TypeError
  end.

(** A sequence of per-channel constants against C channels: one constant
    serves every channel, C constants serve one channel each. *)
Definition broadcast (xs : list F) (c : nat) : option (list F) :=
  match xs with
  | [x] => Some (replicate c x)
  | _ => if (length xs =? c)%nat then Some xs else None
  end.

Definition normalize (mean std : list F) (t : Tensor) : outcome Tensor :=
  match broadcast mean (length t), broadcast std (length t) with
  | Some ms, Some ss =>
      Returns (zip_with
                 (fun ch m_s => map (map (fun v => fdiv (fsub v (fst m_s)) (snd m_s))) ch)
                 t (zip ms ss))
  | _, _ => Raises RuntimeError
  end.

Definition Normalize (mean std : list F) (x : transform_arg) : outcome transform_arg :=
  match x with
  | TorchTensor t =>
      match normalize mean std t with
      | Returns t' => Returns (TorchTensor t')
      | Raises e => Raises e
      end
  | PILImage _ => Raises TypeError
  end.

(** [Compose(transforms)(img)]: the transforms in order. *)
Definition Compose (transforms : list (transform_arg -> outcome transform_arg))
    (img : transform_arg) : outcome transform_arg :=
  fold_left (fun acc t => match acc with Returns x => t x | Raises e => Raises e end)
            transforms (Returns img).

(** [tensor.tolist()] *)
Definition tolist (x : transform_arg) : outcome (value F) :=
  match x with
  | TorchTensor t =>
      Returns (VList (map (fun ch => VList (map (fun row => VList (map VFloat row)) ch)) t))
  | PILImage _ => Raises AttributeError
  end.
End Transforms.

(** ** The program *)

Definition EXPLAINER_URL_FORMAT : string := "http://{0}/v1/models/{1}:explain".

Section Normalizer.
Context {F : Type} {fl : FloatOps F} {lb : Libs F}.

Definition image_processing : transform_arg -> outcome transform_arg :=
  Compose [ToTensor; Normalize [f_of_Q (1307 # 10000)] [f_of_Q (3081 # 10000)]].

(** [base64.b64decode(s)]: a string must be ASCII and goes to the binascii
    decoder; the other values of the fragment are not bytes-like. *)
Definition b64decode (s : value F) : outcome bytes :=
  match s with
  | VStr s =>
      if forallb (fun c => (nat_of_ascii c <? 128)%nat) (list_ascii_of_string s)
      then match a2b_base64 s with
           | Some b => Returns b
           | None => Raises binascii_Error
           end
      else Raises ValueError
  | _ => Raises TypeError
  end.

(** [Image.open(io.BytesIO(byte_array))] *)
Definition open_image (byte_array : bytes) : outcome Image :=
  match Image_open byte_array with
  | Some pic => Returns pic
  | None => Raises UnidentifiedImageError
  end.

Definition image_transform (instance : value F) : M F (value F) :=
  data <- getitem instance "data" ;;
  byte_array <- lift (b64decode data) ;;
  image <- lift (open_image byte_array) ;;
  t <- lift (image_processing (PILImage image)) ;;
  l <- lift (tolist t) ;;
  setitem instance "data" l ;;
  logging_info instance [] ;;
  ret instance.
End Normalizer.

Module ImageTransformer.
(** The attributes of the object.  [name] is set by the constructor of the
    base class [kserve.Model]. *)
Record self := {
  name : string;
  predictor_host : option string;
  explainer_host : option string;
  timeout : Z
}.

Section Methods.
Context {F : Type} {fl : FloatOps F} {lb : Libs F}.

Definition __init__ (name : string) (predictor_host : option string) : M F self :=
  logging_info (VStr "MODEL NAME %s") [VStr name] ;;
  logging_info (VStr "PREDICTOR URL %s") [str_or_None predictor_host] ;;
  logging_info (VStr "EXPLAINER URL %s") [str_or_None predictor_host] ;;
  ret {| name := name;
         predictor_host := predictor_host;
         explainer_host := predictor_host;
         timeout := 100 |}.

Definition preprocess (s : self) (inputs : value F)
    (headers : option (gmap string string)) : M F (value F) :=
  instances <- getitem inputs "instances" ;;
  xs <- iter instances ;;
  out <- comprehension image_transform xs ;;
  new_dict {["instances" := VList out]}.

Definition postprocess (s : self) (inputs : value F) : M F (value F) :=
  ret inputs.

(** [self._http_client.fetch(...)]: the request goes out, the upstream's
    answer comes back or the client raises. *)
Definition http_fetch (rq : HTTPRequest) : M F HTTPResponse := fun w =>
  (fetch rq, {| heap := heap w; log := log w; sent := sent w ++ [rq] |}).

Definition dumps (v : value F) : M F string := fun w =>
  (json_dumps (heap w) v, w).

Definition loads (s : string) : M F (json F) :=
  match json_loads s with
  | Some j => ret j
  | None => raise JSONDecodeError
  end.

Definition explain (s : self) (request : value F)
    (headers : option (gmap string string)) : M F (json F) :=
  match explainer_host s with
  | None => raise NotImplementedError
  | Some host =>
      logging_info (VStr "Inside Image Transformer explain %s")
                   [VStr (format EXPLAINER_URL_FORMAT [host; name s])] ;;
      payload <- dumps request ;;
      response <- http_fetch {| url := format EXPLAINER_URL_FORMAT [host; name s];
                                method := "POST";
                                request_timeout := timeout s;
                                body := payload;
                                headers := None |} ;;
      if negb (Z.eqb (code response) 200)
      then raise (HTTPError (code response) (response_body response))
      else loads (response_body response)
  end.
End Methods.
End ImageTransformer.

(** ** Concrete libraries for the examples

    Executable stand-ins for the library interface, so that the program can
    be run on concrete requests: exact rational arithmetic for the float
    operations, the non-strict base64 decoder of CPython's binascii, a
    reader for binary PGM and PPM files (two of the formats PIL reads), a
    JSON printer and reader for the float-free fragment, and an upstream
    that answers every request with a fixed response. *)

Module Concrete.

#[global] Instance Q_floats : FloatOps Q := {
  f_of_Z := inject_Z;
  f_of_Q := Qred;
  fsub := fun a b => Qred (a - b);
  fdiv := fun a b => Qred (a / b)
}.

(** *** base64 *)

Definition b64_digit (c : ascii) : option N :=
  let n := N_of_ascii c in
  if N.leb 65 n && N.leb n 90 then Some (n - 65)%N
  else if N.leb 97 n && N.leb n 122 then Some (n - 71)%N
  else if N.leb 48 n && N.leb n 57 then Some (n + 4)%N
  else if N.eqb n 43 then Some 62%N
  else if N.eqb n 47 then Some 63%N
  else None.

Definition byte_of_N (n : N) : byte :=
  match Byte.of_N (N.land n 255) with
  | Some b => b
  | None => x00
  end.

(** The decoding loop: [quad_pos] is the position in the current group of
    four digits, [leftchar] the bits not yet written, [pads] the padding
    characters seen since the last digit.  Characters outside the
    alphabet are skipped; padding that completes a group ends the
    decoding; digits left over at the end are an error. *)
Fixpoint a2b_loop (s : list ascii) (quad_pos leftchar pads : N) (out : list byte)
    : option bytes :=
  match s with
  | [] => if N.eqb quad_pos 0 then Some (rev out) else None
  | c :: s' =>
      if Ascii.eqb c "="%char then
        if N.leb 2 quad_pos then
          if N.leb 4 (quad_pos + (pads + 1)) then Some (rev out)
          else a2b_loop s' quad_pos leftchar (pads + 1)%N out
        else a2b_loop s' quad_pos leftchar pads out
      else
        match b64_digit c with
        | None => a2b_loop s' quad_pos leftchar pads out
        | Some v =>
            if N.eqb quad_pos 0 then a2b_loop s' 1%N v 0%N out
            else if N.eqb quad_pos 1 then
              a2b_loop s' 2%N (N.land v 15) 0%N
                (byte_of_N (N.lor (N.shiftl leftchar 2) (N.shiftr v 4)) :: out)
            else if N.eqb quad_pos 2 then
              a2b_loop s' 3%N (N.land v 3) 0%N
                (byte_of_N (N.lor (N.shiftl leftchar 4) (N.shiftr v 2)) :: out)
            else
              a2b_loop s' 0%N 0%N 0%N
                (byte_of_N (N.lor (N.shiftl leftchar 6) v) :: out)
        end
  end.

Definition binascii_a2b_base64 (s : string) : option bytes :=
  a2b_loop (list_ascii_of_string s) 0 0 0 [].

(** *** Binary PGM and PPM *)

Definition is_space (b : byte) : bool :=
  let n := Byte.to_N b in
  N.eqb n 32 || N.eqb n 9 || N.eqb n 10 || N.eqb n 13.

Definition digit_of (b : byte) : option nat :=
  let n := N.to_nat (Byte.to_N b) in
  if (48 <=? n)%nat && (n <=? 57)%nat then Some (n - 48)%nat else None.

Fixpoint skip_spaces (bs : bytes) : bytes :=
  match bs with
  | b :: bs' => if is_space b then skip_spaces bs' else bs
  | [] => []
  end.

Fixpoint read_digits (acc : nat) (bs : bytes) : nat * bytes :=
  match bs with
  | b :: bs' =>
      match digit_of b with
      | Some d => read_digits (10 * acc + d)%nat bs'
      | None => (acc, bs)
      end
  | [] => (acc, [])
  end.

(** A header token: white space, then at least one digit. *)
Definition read_number (bs : bytes) : option (nat * bytes) :=
  match bs with
  | b :: _ =>
      if is_space b then
        match skip_spaces bs with
        | d :: rest =>
            match digit_of d with
            | Some _ => Some (read_digits 0 (d :: rest))
            | None => None
            end
        | [] => None
        end
      else None
  | [] => None
  end.

Fixpoint chunks {A} (n count : nat) (l : list A) : list (list A) :=
  match count with
  | O => []
  | S k => take n l :: chunks n k (drop n l)
  end.

Definition raster (bands width height : nat) (data : bytes) : option (list (list (list Z))) :=
  if (bands * width * height <=? length data)%nat then
    Some (map (fun row => chunks bands width row)
              (chunks (bands * width) height (map (fun b => Z.of_N (Byte.to_N b)) data)))
  else None.

Definition pnm_open (bs : bytes) : option Image :=
  match bs with
  | p :: k :: rest =>
      if N.eqb (Byte.to_N p) 80 then
        match (if N.eqb (Byte.to_N k) 53 then Some L
               else if N.eqb (Byte.to_N k) 54 then Some RGB
               else None) with
        | Some m =>
            match read_number rest with
            | Some (width, rest1) =>
                match read_number rest1 with
                | Some (height, rest2) =>
                    match read_number rest2 with
                    | Some (maxval, sep :: data) =>
                        if (maxval =? 255)%nat && is_space sep then
                          match raster (length (getbands m)) width height data with
                          | Some px =>
                              Some {| im_mode := m; im_size := (width, height); im_pixels := px |}
                          | None => None
                          end
                        else None
                    | _ => None
                    end
                | None => None
                end
            | None => None
            end
        | None => None
        end
      else None
  | _ => None
  end.

(** *** JSON, the fragment without floats *)

(** The double quote character. *)
Definition dquote : ascii := Ascii false true false false false true false false.

Definition is_Some_b {A} (o : option A) : bool :=
  match o with
  | Some _ => true
  | None => false
  end.

Definition hex_digit (n : N) : ascii :=
  ascii_of_N (if N.ltb n 10 then 48 + n else 87 + n).

Definition escape_char (c : ascii) : string :=
  let n := N_of_ascii c in
  if N.eqb n 34 then String "\" (String dquote "")
  else if N.eqb n 92 then "\\"
  else if N.eqb n 10 then "\n"
  else if N.eqb n 13 then "\r"
  else if N.eqb n 9 then "\t"
  else if N.eqb n 8 then "\b"
  else if N.eqb n 12 then "\f"
  else if N.leb 32 n && N.leb n 126 then String c ""
  else "\u00" ++ String (hex_digit (N.shiftr n 4)) (String (hex_digit (N.land n 15)) "").

Definition quote (s : string) : string :=
  String dquote
    (fold_right (fun c acc => escape_char c ++ acc) (String dquote "")
                (list_ascii_of_string s)).

Fixpoint join (sep : string) (xs : list string) : string :=
  match xs with
  | [] => ""
  | [x] => x
  | x :: xs' => x ++ sep ++ join sep xs'
  end.

Fixpoint sequence {A} (xs : list (outcome A)) : outcome (list A) :=
  match xs with
  | [] => Returns []
  | Returns a :: xs' =>
      match sequence xs' with
      | Returns l => Returns (a :: l)
      | Raises e => Raises e
      end
  | Raises e :: _ => Raises e
  end.

(** The printer follows references through the store; [fuel] bounds the
    nesting, and running out of it stands for the circular-reference
    check of [json.dumps].  The members of an object come in the order of
    the keys of the store, which does not record the order of insertion. *)
Fixpoint dumps_value (fuel : nat) (h : gmap loc (gmap string (value Q))) (v : value Q)
    : outcome string :=
  match fuel with
  | O => Raises ValueError
  | S k =>
      match v with
      | VNone => Returns "null"
      | VBool true => Returns "true"
      | VBool false => Returns "false"
      | VInt z => Returns (pretty z)
      | VFloat _ => Raises TypeError
      | VStr s => Returns (quote s)
      | VList l =>
          match sequence (map (dumps_value k h) l) with
          | Returns items => Returns ("[" ++ join ", " items ++ "]")
          | Raises e => Raises e
          end
      | VDict r =>
          match h !! r with
          | Some o =>
              match sequence (map (fun kv =>
                                     match dumps_value k h (snd kv) with
                                     | Returns s => Returns (quote (fst kv) ++ ": " ++ s)
                                     | Raises e => Raises e
                                     end) (map_to_list o)) with
              | Returns items => Returns ("{" ++ join ", " items ++ "}")
              | Raises e => Raises e
              end
          | None => Raises ReferenceError
          end
      end
  end.

Definition is_json_space (c : ascii) : bool :=
  let n := N_of_ascii c in
  N.eqb n 32 || N.eqb n 9 || N.eqb n 10 || N.eqb n 13.

Fixpoint skip_ws (s : list ascii) : list ascii :=
  match s with
  | c :: s' => if is_json_space c then skip_ws s' else s
  | [] => []
  end.

Definition json_digit (c : ascii) : option Z :=
  let n := Z.of_N (N_of_ascii c) in
  if Z.leb 48 n && Z.leb n 57 then Some (n - 48) else None.

Fixpoint parse_digits (acc : Z) (s : list ascii) : Z * list ascii :=
  match s with
  | c :: s' =>
      match json_digit c with
      | Some d => parse_digits (10 * acc + d) s'
      | None => (acc, s)
      end
  | [] => (acc, [])
  end.

(** An integer literal: no leading zero, and no fraction or exponent
    behind it (that would be a float). *)
Definition parse_int (s : list ascii) : option (Z * list ascii) :=
  match s with
  | c :: s' =>
      match json_digit c with
      | Some d =>
          let '(n, rest) := if Z.eqb d 0 then (0, s') else parse_digits 0 s in
          match rest with
          | c' :: _ =>
              if is_Some_b (json_digit c') then None
              else if Ascii.eqb c' "."%char || Ascii.eqb c' "e"%char || Ascii.eqb c' "E"%char
              then None
              else Some (n, rest)
          | [] => Some (n, rest)
          end
      | None => None
      end
  | [] => None
  end.

(** The characters of a string literal up to its closing quote. *)
Fixpoint parse_string (s : list ascii) : option (string * list ascii) :=
  match s with
  | [] => None
  | c :: s' =>
      if Ascii.eqb c dquote then Some ("", s')
      else if Ascii.eqb c "\"%char then
        match s' with
        | e :: s'' =>
            let n := N_of_ascii e in
            match (if N.eqb n 34 then Some dquote
                   else if N.eqb n 92 then Some "\"%char
                   else if N.eqb n 47 then Some "/"%char
                   else if N.eqb n 110 then Some (ascii_of_N 10)
                   else if N.eqb n 114 then Some (ascii_of_N 13)
                   else if N.eqb n 116 then Some (ascii_of_N 9)
                   else if N.eqb n 98 then Some (ascii_of_N 8)
                   else if N.eqb n 102 then Some (ascii_of_N 12)
                   else None) with
            | Some c' =>
                match parse_string s'' with
                | Some (str, rest) => Some (String c' str, rest)
                | None => None
                end
            | None => None
            end
        | [] => None
        end
      else if N.ltb (N_of_ascii c) 32 then None
      else
        match parse_string s' with
        | Some (str, rest) => Some (String c str, rest)
        | None => None
        end
  end.

Fixpoint parse_value (fuel : nat) (s : list ascii) : option (json Q * list ascii) :=
  match fuel with
  | O => None
  | S k =>
      match skip_ws s with
      | "n"%char :: "u"%char :: "l"%char :: "l"%char :: rest => Some (JNull, rest)
      | "t"%char :: "r"%char :: "u"%char :: "e"%char :: rest => Some (JBool true, rest)
      | "f"%char :: "a"%char :: "l"%char :: "s"%char :: "e"%char :: rest =>
          Some (JBool false, rest)
      | Ascii false true false false false true false false :: rest =>
          match parse_string rest with
          | Some (str, rest') => Some (JStr str, rest')
          | None => None
          end
      | "["%char :: rest =>
          match skip_ws rest with
          | "]"%char :: rest' => Some (JArr [], rest')
          | _ =>
              match parse_elements k rest with
              | Some (items, rest') => Some (JArr items, rest')
              | None => None
              end
          end
      | "{"%char :: rest =>
          match skip_ws rest with
          | "}"%char :: rest' => Some (JObj [], rest')
          | _ =>
              match parse_members k rest with
              | Some (items, rest') => Some (JObj items, rest')
              | None => None
              end
          end
      | "-"%char :: rest =>
          match parse_int rest with
          | Some (n, rest') => Some (JInt (- n), rest')
          | None => None
          end
      | rest =>
          match parse_int rest with
          | Some (n, rest') => Some (JInt n, rest')
          | None => None
          end
      end
  end
with parse_elements (fuel : nat) (s : list ascii) : option (list (json Q) * list ascii) :=
  match fuel with
  | O => None
  | S k =>
      match parse_value k s with
      | Some (v, rest) =>
          match skip_ws rest with
          | ","%char :: rest' =>
              match parse_elements k rest' with
              | Some (vs, rest'') => Some (v :: vs, rest'')
              | None => None
              end
          | "]"%char :: rest' => Some ([v], rest')
          | _ => None
          end
      | None => None
      end
  end
with parse_members (fuel : nat) (s : list ascii)
    : option (list (string * json Q) * list ascii) :=
  match fuel with
  | O => None
  | S k =>
      match skip_ws s with
      | Ascii false true false false false true false false :: rest =>
          match parse_string rest with
          | Some (key, rest1) =>
              match skip_ws rest1 with
              | ":"%char :: rest2 =>
                  match parse_value k rest2 with
                  | Some (v, rest3) =>
                      match skip_ws rest3 with
                      | ","%char :: rest4 =>
                          match parse_members k rest4 with
                          | Some (ms, rest5) => Some ((key, v) :: ms, rest5)
                          | None => None
                          end
                      | "}"%char :: rest4 => Some ([(key, v)], rest4)
                      | _ => None
                      end
                  | None => None
                  end
              | _ => None
              end
          | None => None
          end
      | _ => None
      end
  end.

Definition loads_text (s : string) : option (json Q) :=
  let cs := list_ascii_of_string s in
  match parse_value (2 * length cs + 2) cs with
  | Some (j, rest) =>
      match skip_ws rest with
      | [] => Some j
      | _ => None
      end
  | None => None
  end.

(** The libraries, around an upstream. *)
Definition libs (upstream : HTTPRequest -> outcome HTTPResponse) : Libs Q := {|
  a2b_base64 := binascii_a2b_base64;
  Image_open := pnm_open;
  json_dumps := dumps_value 100;
  json_loads := loads_text;
  fetch := upstream
|}.

(** An upstream that answers every request with [status] and [text]. *)
Definition answering (status : Z) (text : string) : HTTPRequest -> outcome HTTPResponse :=
  fun _ => Returns {| code := status; response_body := text |}.

(** *** A store for the examples *)

(** A 2 x 1 grayscale picture with the samples 0 and 255: the binary PGM
    file [P5 2 1 255] and two bytes, in base64. *)
Definition gray_pair : string := "UDUgMiAxIDI1NSAA/w==".

(** A 1 x 1 colour picture with the samples 255, 0, 128: the binary PPM
    file [P6 1 1 255] and three bytes, in base64. *)
Definition rgb_pixel : string := "UDYgMSAxIDI1NSD/AIA=".

Definition gray_image : Image :=
  {| im_mode := L; im_size := (2%nat, 1%nat); im_pixels := [[[0]; [255]]] |}.

Definition rgb_image : Image :=
  {| im_mode := RGB; im_size := (1%nat, 1%nat); im_pixels := [[[255; 0; 128]]] |}.

Definition gray_instance : gmap string (value Q) :=
  {[ "data" := VStr gray_pair; "id" := VInt 7 ]}.

Definition rgb_instance : gmap string (value Q) :=
  {[ "data" := VStr rgb_pixel; "id" := VInt 8 ]}.

Definition bad_instance : gmap string (value Q) :=
  {[ "data" := VStr "not-base64!!"; "id" := VInt 9 ]}.

(** Three Instances, at 4 the request [{instances: [1, 2]}], and at 5 a
    request that lists the dictionary 1 twice. *)
Definition example_world : world Q :=
  {| heap := {[ 1%positive := gray_instance;
                2%positive := rgb_instance;
                3%positive := bad_instance;
                4%positive := {[ "instances" := VList [VDict 1%positive; VDict 2%positive] ]};
                5%positive := {[ "instances" := VList [VDict 1%positive; VDict 1%positive] ]} ]};
     log := [];
     sent := [] |}.

(** The libraries of the examples whose upstream does not matter. *)
Definition offline : Libs Q := libs (fun _ => Raises (HTTPClientError "no upstream")).

(** The response body of the example of the specification: an object
    whose member [explanations] is the array [1,2,3]. *)
Definition explanations_body : string :=
  "{" ++ String dquote "explanations" ++ String dquote ": [1,2,3]}".

(** The serialization of the request at 4 of the example store. *)
Definition example_payload : string :=
  match dumps_value 100 (heap example_world) (VDict 4%positive) with
  | Returns text => text
  | Raises _ => ""
  end.

(** A transformer as the constructor leaves it, for the model [mnist]. *)
Definition transformer (host : option string) : ImageTransformer.self :=
  {| ImageTransformer.name := "mnist";
     ImageTransformer.predictor_host := host;
     ImageTransformer.explainer_host := host;
     ImageTransformer.timeout := 100 |}.

(** A transformer whose explainer host is [explainer:8080] and whose
    attribute [predictor_host] is another host. *)
Definition with_predictor (host : string) : ImageTransformer.self :=
  {| ImageTransformer.name := "mnist";
     ImageTransformer.predictor_host := Some host;
     ImageTransformer.explainer_host := Some "explainer:8080";
     ImageTransformer.timeout := 100 |}.

(** *** Malformed base64 that the decoder accepts

    The text of [gray_pair] with a character outside the alphabet and a
    space inside it and with more text after the padding. *)
Definition junk_gray_pair : string := "UDUg!MiAx IDI1NSAA/w==junk".

Definition junk_instance : gmap string (value Q) :=
  {[ "data" := VStr junk_gray_pair; "id" := VInt 11 ]}.

Definition junk_world : world Q :=
  {| heap := {[ 1%positive := junk_instance ]}; log := []; sent := [] |}.

(** *** A store for the edge cases

    Beside the three Instances of the example store: at 6 an Instance
    without [data], at 7 one whose [data] is a number, at 8 a request whose
    second Instance is the one the decoder refuses, at 9 a request without
    [instances], at 10 one with no Instance, at 11 one whose [instances] is
    [None], and at 12 a dictionary that holds itself. *)
Definition edge_world : world Q :=
  {| heap := {[ 1%positive := gray_instance;
                2%positive := rgb_instance;
                3%positive := bad_instance;
                6%positive := {[ "id" := VInt 10 ]};
                7%positive := {[ "data" := VInt 42 ]};
                8%positive := {[ "instances" :=
                                   VList [VDict 1%positive; VDict 3%positive; VDict 2%positive] ]};
                9%positive := {[ "inputs" := VList [] ]};
                10%positive := {[ "instances" := VList [] ]};
                11%positive := {[ "instances" := VNone ]};
                12%positive := {[ "self" := VDict 12%positive ]} ]};
     log := [];
     sent := [] |}.
End Concrete.

(** ** The notions of the specification *)

Section Notions.
Context {F : Type} {fl : FloatOps F} {lb : Libs F}.

(** The per-element function of the normalizer, [(v - 0.1307) / 0.3081]. *)
Definition standardize (v : F) : F :=
  fdiv (fsub v (f_of_Q (1307 # 10000))) (f_of_Q (3081 # 10000)).

(** A pixel value scaled to the unit interval: a sample [p] of 0..255 over
    255. *)
Definition scaled (v : F) : Prop :=
  exists p : Z, 0 <= p <= 255 /\ v = fdiv (f_of_Z p) (f_of_Z 255).

(** The nested sequence of floats of a tensor. *)
Definition nested (t : Tensor) : value F :=
  VList (map (fun ch => VList (map (fun row => VList (map VFloat row)) ch)) t).

(** The value is a base64 string that encodes the image [pic]. *)
Definition encodes (data : value F) (pic : Image) : Prop :=
  exists s bs, data = VStr s /\ b64decode data = Returns bs /\ Image_open bs = Some pic.

(** The value is a string that [base64.b64decode] refuses.  This is the
    decoder's verdict, not well-formedness of the text: see
    [malformed_base64] for the latter. *)
Definition refused_base64 (data : value F) : Prop :=
  exists s e, data = VStr s /\ b64decode data = Raises e.

(** The value is a base64 string whose bytes are not an image. *)
Definition not_an_image (data : value F) : Prop :=
  exists s bs, data = VStr s /\ b64decode data = Returns bs /\ Image_open bs = None.

(** The normalizer as a function on the contents of an Instance: what
    [image_transform] makes of a dictionary, apart from the store and the
    log. *)
Definition normalizer (o : gmap string (value F)) : outcome (gmap string (value F)) :=
  match o !! "data" with
  | None => Raises (KeyError "data")
  | Some data =>
      match b64decode data with
      | Raises e => Raises e
      | Returns byte_array =>
          match open_image byte_array with
          | Raises e => Raises e
          | Returns image =>
              match image_processing (PILImage image) with
              | Raises e => Raises e
              | Returns t =>
                  match tolist t with
                  | Raises e => Raises e
                  | Returns l => Returns (<["data" := l]> o)
                  end
              end
          end
      end
  end.

(** The reference [v] is an Instance of the store of [w] that holds the
    image [pic] in its [data] field. *)
Definition holds_image (w : world F) (v : value F) (pic : Image) : Prop :=
  exists r o data,
    v = VDict r /\ heap w !! r = Some o /\ o !! "data" = Some data /\ encodes data pic.

(** The contents of the dictionary behind a value. *)
Definition contents (w : world F) (v : value F) : option (gmap string (value F)) :=
  match v with
  | VDict r => heap w !! r
  | _ => None
  end.
End Notions.

Section EdgeNotions.
Context {F : Type}.

Definition is_str (v : value F) : bool :=
  match v with
  | VStr _ => true
  | _ => false
  end.

(** The values a [for] clause cannot iterate over. *)
Definition not_iterable (v : value F) : bool :=
  match v with
  | VNone | VBool _ | VInt _ | VFloat _ => true
  | _ => false
  end.

(** A nested list of floats with the given lengths, outermost first. *)
Fixpoint has_shape (dims : list nat) (v : value F) : Prop :=
  match dims with
  | [] => exists x, v = VFloat x
  | n :: dims' => exists l, v = VList l /\ length l = n /\ Forall (has_shape dims') l
  end.

(** The message of a log record. *)
Definition log_msg (rcd : log_record F) : value F :=
  match rcd with
  | info msg _ _ => msg
  end.
End EdgeNotions.

(** ** Well-formed base64 text

    Base64 text as RFC 4648 has it, whatever a decoder makes of it: groups
    of four characters of the alphabet, the last group ending in no, one or
    two padding characters, and nothing else. *)

Definition base64_digit (c : ascii) : bool :=
  let n := N_of_ascii c in
  (N.leb 65 n && N.leb n 90) || (N.leb 97 n && N.leb n 122)
  || (N.leb 48 n && N.leb n 57) || N.eqb n 43 || N.eqb n 47.

Definition base64_pad (c : ascii) : bool := Ascii.eqb c "="%char.

Fixpoint well_formed_groups (cs : list ascii) : bool :=
  match cs with
  | [] => true
  | a :: b :: c :: d :: rest =>
      base64_digit a && base64_digit b
      && match rest with
         | [] => (base64_digit c && (base64_digit d || base64_pad d))
                 || (base64_pad c && base64_pad d)
         | _ => base64_digit c && base64_digit d && well_formed_groups rest
         end
  | _ => false
  end.

Definition well_formed_base64 (s : string) : bool :=
  well_formed_groups (list_ascii_of_string s).

Section Malformed.
Context {F : Type}.

(** The value is a string that is not well-formed base64 text. *)
Definition malformed_base64 (data : value F) : Prop :=
  exists s, data = VStr s /\ well_formed_base64 s = false.
End Malformed.

(** ** The normalizer *)

Section NormalizerFacts.
Context {F : Type} {fl : FloatOps F} {lb : Libs F}.

Lemma broadcast_single (x : F) (c : nat) : broadcast [x] c = Some (replicate c x).
Proof. reflexivity. Qed.

Lemma zip_with_replicate_pair (m s : F) (t : Tensor) :
  zip_with (fun ch m_s => map (map (fun v => fdiv (fsub v (fst m_s)) (snd m_s))) ch)
           t (zip (replicate (length t) m) (replicate (length t) s))
  = map (map (map (fun v => fdiv (fsub v m) s))) t.
Proof.
  induction t as [|ch t IH]; simpl.
  - reflexivity.
  - f_equal. exact IH.
Qed.

(** One mean and one deviation are applied to every element of every
    channel. *)
Lemma normalize_single (m s : F) (t : Tensor) :
  normalize [m] [s] t = Returns (map (map (map (fun v => fdiv (fsub v m) s))) t).
Proof.
  unfold normalize. rewrite !broadcast_single.
  f_equal. apply zip_with_replicate_pair.
Qed.

Lemma image_processing_image (pic : Image) :
  image_processing (PILImage pic)
  = Returns (TorchTensor (map (map (map standardize)) (to_tensor pic))).
Proof.
  unfold image_processing, Compose, fold_left, ToTensor, Normalize.
  rewrite normalize_single. reflexivity.
Qed.

Lemma to_tensor_channels (pic : Image) :
  length (to_tensor pic) = length (getbands (im_mode pic)).
Proof. unfold to_tensor. rewrite length_map, length_seq. reflexivity. Qed.

Lemma Image_wf_sample (pic : Image) (row : list (list Z)) (px : list Z) :
  Image_wf pic = true -> row ∈ im_pixels pic -> px ∈ row ->
  length px = length (getbands (im_mode pic)) /\ Forall (fun v => 0 <= v <= 255) px.
Proof.
  unfold Image_wf. intros Hwf Hrow Hpx.
  apply andb_true_iff in Hwf as [_ Hrows].
  rewrite forallb_forall in Hrows.
  apply list_elem_of_In in Hrow. apply Hrows in Hrow.
  apply andb_true_iff in Hrow as [_ Hpxs].
  rewrite forallb_forall in Hpxs.
  apply list_elem_of_In in Hpx. apply Hpxs in Hpx.
  apply andb_true_iff in Hpx as [Hlen Hvs].
  split.
  - apply Nat.eqb_eq. exact Hlen.
  - apply Forall_forall. intros v Hv.
    rewrite forallb_forall in Hvs.
    apply list_elem_of_In in Hv. apply Hvs in Hv.
    apply andb_true_iff in Hv as [H0 H255].
    apply Z.leb_le in H0. apply Z.leb_le in H255. lia.
Qed.

(** Every element of the tensor of a well-formed image is a sample over
    255. *)
Lemma to_tensor_scaled (pic : Image) (ch : list (list F)) (row : list F) (v : F) :
  Image_wf pic = true -> ch ∈ to_tensor pic -> row ∈ ch -> v ∈ row -> scaled v.
Proof.
  intros Hwf Hch Hrow Hv. unfold to_tensor in Hch.
  apply list_elem_of_fmap in Hch as (c & -> & Hc).
  apply list_elem_of_fmap in Hrow as (prow & -> & Hprow).
  apply list_elem_of_fmap in Hv as (px & -> & Hpx).
  destruct (Image_wf_sample pic prow px Hwf Hprow Hpx) as [Hlen Hrange].
  apply elem_of_seq in Hc.
  exists (nth c px 0). split; [|reflexivity].
  rewrite Forall_forall in Hrange. apply Hrange.
  apply list_elem_of_In. apply nth_In. lia.
Qed.

(** The normalizer on an Instance whose [data] encodes an image. *)
Lemma normalizer_image (o : gmap string (value F)) (data : value F) (pic : Image) :
  o !! "data" = Some data -> encodes data pic ->
  normalizer o
  = Returns (<["data" := nested (map (map (map standardize)) (to_tensor pic))]> o).
Proof.
  intros Hdata (s & bs & -> & Hdec & Hopen).
  unfold normalizer. rewrite Hdata, Hdec.
  unfold open_image. rewrite Hopen.
  rewrite image_processing_image. reflexivity.
Qed.

(** [image_transform] on a dictionary of the store: it is the normalizer
    on the contents, written back in place and logged; when the normalizer
    raises, nothing has changed. *)
Lemma image_transform_store (w : world F) (r : loc) (o : gmap string (value F)) :
  heap w !! r = Some o ->
  image_transform (VDict r) w
  = match normalizer o with
    | Returns o' =>
        (Returns (VDict r),
         {| heap := <[r := o']> (heap w);
            log := log w ++ [info (VDict r) [] (<[r := o']> (heap w))];
            sent := sent w |})
    | Raises e => (Raises e, w)
    end.
Proof.
  intros Hr. unfold image_transform, normalizer, bind, getitem, lift.
  rewrite Hr.
  destruct (o !! "data") as [data|]; [|reflexivity].
  destruct (b64decode data) as [bs|e]; [|reflexivity].
  destruct (open_image bs) as [pic|e]; [|reflexivity].
  destruct (image_processing (PILImage pic)) as [t|e]; [|reflexivity].
  destruct (tolist t) as [l|e]; [|reflexivity].
  unfold setitem. rewrite Hr. reflexivity.
Qed.

(** Whatever it is applied to, a call of [image_transform] that raises
    leaves the world as it was. *)
Lemma image_transform_raises (v : value F) (w w' : world F) (e : exn) :
  image_transform v w = (Raises e, w') -> w' = w.
Proof.
  destruct v as [| | | | | |r];
    try (unfold image_transform, bind, getitem; intros [= _ <-]; reflexivity).
  destruct (heap w !! r) as [o|] eqn:Hr.
  - rewrite (image_transform_store w r o Hr).
    destruct (normalizer o); intros [= <-]; congruence.
  - unfold image_transform, bind, getitem. rewrite Hr. intros [= _ <-]. reflexivity.
Qed.
End NormalizerFacts.

(** ** The explain proxy *)

Section ExplainFacts.
Context {F : Type} {fl : FloatOps F} {lb : Libs F}.
Import ImageTransformer.

(** The URL the template gives for a host and a model name. *)
(** What the constructor returns, and that it only logs. *)
Lemma init_returns (model : string) (host : option string) (w : world F) :
  exists w',
    __init__ model host w
    = (Returns {| name := model; predictor_host := host;
                  explainer_host := host; timeout := 100 |}, w')
    /\ heap w' = heap w /\ sent w' = sent w.
Proof. eexists. split; [reflexivity|]. split; reflexivity. Qed.

Lemma explainer_url (host model : string) :
  format EXPLAINER_URL_FORMAT [host; model]
  = "http://" ++ host ++ "/v1/models/" ++ model ++ ":explain".
Proof. reflexivity. Qed.

(** [explain] with a host, a request that serializes and whatever the
    client does: one request goes out, and the client's outcome decides the
    rest. *)
Lemma explain_configured (s : self) (host : string) (request : value F)
    (headers : option (gmap string string)) (w : world F) (payload : string) :
  explainer_host s = Some host ->
  json_dumps (heap w) request = Returns payload ->
  let rq := {| url := "http://" ++ host ++ "/v1/models/" ++ name s ++ ":explain";
               method := "POST";
               request_timeout := timeout s;
               body := payload;
               headers := None |} in
  let w' := {| heap := heap w;
               log := log w ++ [info (VStr "Inside Image Transformer explain %s")
                                     [VStr (url rq)] (heap w)];
               sent := sent w ++ [rq] |} in
  explain s request headers w
  = match fetch rq with
    | Raises e => (Raises e, w')
    | Returns response =>
        if Z.eqb (code response) 200
        then match json_loads (response_body response) with
             | Some j => (Returns j, w')
             | None => (Raises JSONDecodeError, w')
             end
        else (Raises (HTTPError (code response) (response_body response)), w')
    end.
Proof.
  intros Hhost Hdumps rq w'.
  unfold explain. rewrite Hhost.
  unfold bind, logging_info, dumps, http_fetch. cbn [heap log sent].
  rewrite Hdumps, explainer_url. fold rq.
  destruct (fetch rq) as [response|e]; [|reflexivity].
  destruct (Z.eqb (code response) 200); cbn [negb].
  - unfold loads. destruct (json_loads (response_body response)); reflexivity.
  - reflexivity.
Qed.

(** [explain] without a host. *)
Lemma explain_unconfigured (s : self) (request : value F)
    (headers : option (gmap string string)) (w : world F) :
  explainer_host s = None ->
  explain s request headers w = (Raises NotImplementedError, w).
Proof. intros Hhost. unfold explain. rewrite Hhost. reflexivity. Qed.

(** [explain] when the request does not serialize: the exception of
    [json.dumps], and nothing is sent. *)
Lemma explain_unserializable (s : self) (host : string) (request : value F)
    (headers : option (gmap string string)) (w : world F) (e : exn) :
  explainer_host s = Some host ->
  json_dumps (heap w) request = Raises e ->
  fst (explain s request headers w) = Raises e
  /\ sent (snd (explain s request headers w)) = sent w.
Proof.
  intros Hhost Hdumps. unfold explain. rewrite Hhost.
  unfold bind, logging_info, dumps. cbn [heap log sent].
  rewrite Hdumps. split; reflexivity.
Qed.
End ExplainFacts.

(** ** The batch wrapper *)

Section PreprocessFacts.
Context {F : Type} {fl : FloatOps F} {lb : Libs F}.
Import ImageTransformer.

(** The normalizer touches the [data] field only. *)
Lemma normalizer_frame (o o' : gmap string (value F)) (k : string) :
  normalizer o = Returns o' -> k <> "data" -> o' !! k = o !! k.
Proof.
  unfold normalizer. intros Hn Hk.
  destruct (o !! "data") as [data|]; [|discriminate].
  destruct (b64decode data) as [bs|]; [|discriminate].
  destruct (open_image bs) as [pic|]; [|discriminate].
  destruct (image_processing (PILImage pic)) as [t|]; [|discriminate].
  destruct (tolist t) as [l|]; [|discriminate].
  injection Hn as <-. apply lookup_insert_ne. congruence.
Qed.

(** The normalizer reads the [data] field only. *)
Lemma normalizer_reads_data (o1 o2 : gmap string (value F)) :
  o1 !! "data" = o2 !! "data" ->
  match normalizer o1, normalizer o2 with
  | Returns o1', Returns o2' => o1' !! "data" = o2' !! "data"
  | Raises e1, Raises e2 => e1 = e2
  | _, _ => False
  end.
Proof.
  unfold normalizer. intros <-.
  destruct (o1 !! "data") as [data|]; [|reflexivity].
  destruct (b64decode data) as [bs|]; [|reflexivity].
  destruct (open_image bs) as [pic|]; [|reflexivity].
  destruct (image_processing (PILImage pic)) as [t|]; [|reflexivity].
  destruct (tolist t) as [l|]; [|reflexivity].
  rewrite !lookup_insert_eq. reflexivity.
Qed.

(** The comprehension over distinct dictionaries that the normalizer
    accepts: each is normalized in place, the list of references comes back
    as it was, the rest of the store and the outbound traffic are
    untouched. *)
Lemma comprehension_image_transform (refs : list loc) : forall w : world F,
  NoDup refs ->
  (forall r, r ∈ refs -> exists o o', heap w !! r = Some o /\ normalizer o = Returns o') ->
  exists w',
    comprehension image_transform (map VDict refs) w = (Returns (map VDict refs), w')
    /\ sent w' = sent w
    /\ (forall r, r ∉ refs -> heap w' !! r = heap w !! r)
    /\ (forall r o, r ∈ refs -> heap w !! r = Some o ->
          exists o', normalizer o = Returns o' /\ heap w' !! r = Some o').
Proof.
  induction refs as [|r refs IH]; intros w Hnd Hvalid.
  - exists w. cbn. split; [reflexivity|]. split; [reflexivity|].
    split; [reflexivity|]. intros r o Hr. inversion Hr.
  - apply NoDup_cons in Hnd as [Hr Hnd].
    destruct (Hvalid r) as (o & o' & Ho & Hn); [left|].
    set (w1 := {| heap := <[r := o']> (heap w);
                  log := log w ++ [info (VDict r) [] (<[r := o']> (heap w))];
                  sent := sent w |}).
    assert (Hstep : image_transform (VDict r) w = (Returns (VDict r), w1)).
    { rewrite (image_transform_store w r o Ho), Hn. reflexivity. }
    destruct (IH w1 Hnd) as (w' & Hrun & Hsent & Hout & Hin).
    { intros r' Hr'. destruct (Hvalid r') as (p & p' & Hp & Hpn); [right; exact Hr'|].
      exists p, p'. split; [|exact Hpn].
      cbn. rewrite lookup_insert_ne; [exact Hp|]. intros ->. contradiction. }
    exists w'. cbn [map comprehension]. unfold bind at 1. rewrite Hstep.
    unfold bind at 1. rewrite Hrun.
    split; [reflexivity|]. split; [|split].
    + exact Hsent.
    + intros r' Hr'. apply not_elem_of_cons in Hr' as [Hne Hr'].
      rewrite (Hout r' Hr'). cbn. apply lookup_insert_ne. congruence.
    + intros r' p Hr' Hp. apply elem_of_cons in Hr' as [->|Hr'].
      * exists o'. rewrite Ho in Hp. injection Hp as <-. split; [exact Hn|].
        rewrite (Hout r Hr). cbn. apply lookup_insert_eq.
      * apply (Hin r' p Hr'). cbn. rewrite lookup_insert_ne; [exact Hp|].
        intros ->. contradiction.
Qed.

(** An Instance that holds an image is one the normalizer accepts. *)
Lemma holds_image_normalizer (w : world F) (r : loc) (pic : Image) :
  holds_image w (VDict r) pic ->
  exists o o', heap w !! r = Some o /\ normalizer o = Returns o'.
Proof.
  intros (r' & o & data & [= <-] & Ho & Hdata & Henc).
  exists o. eexists. split; [exact Ho|].
  apply (normalizer_image o data pic Hdata Henc).
Qed.

(** [preprocess] on a request whose [instances] are distinct dictionaries
    that hold images. *)
Lemma preprocess_images (s : self) (w : world F) (inputs : value F)
    (io : gmap string (value F)) (refs : list loc)
    (headers : option (gmap string string)) :
  contents w inputs = Some io ->
  io !! "instances" = Some (VList (map VDict refs)) ->
  NoDup refs ->
  (forall r, r ∈ refs -> exists pic, holds_image w (VDict r) pic) ->
  exists (fresh_r : loc) (w' : world F),
    preprocess s inputs headers w = (Returns (VDict fresh_r), w')
    /\ heap w !! fresh_r = None
    /\ heap w' !! fresh_r = Some {["instances" := VList (map VDict refs)]}
    /\ sent w' = sent w
    /\ (forall r o, r ∈ refs -> heap w !! r = Some o ->
          exists o', normalizer o = Returns o' /\ heap w' !! r = Some o').
Proof.
  intros Hin Hinst Hnd Hvalid.
  destruct inputs as [| | | | | |ri]; try discriminate. cbn in Hin.
  destruct (comprehension_image_transform refs w Hnd) as (w1 & Hrun & Hsent & Hout & Hrefs).
  { intros r Hr. destruct (Hvalid r Hr) as [pic Hpic].
    apply (holds_image_normalizer w r pic Hpic). }
  assert (Hdom : forall r, is_Some (heap w !! r) -> is_Some (heap w1 !! r)).
  { intros r [o Ho]. destruct (decide (r ∈ refs)) as [Hr|Hr].
    - destruct (Hrefs r o Hr Ho) as (o' & _ & Ho'). eauto.
    - rewrite (Hout r Hr), Ho. eauto. }
  set (fr := fresh (dom (heap w1))).
  assert (Hfresh : heap w1 !! fr = None).
  { apply not_elem_of_dom. apply is_fresh. }
  exists fr, {| heap := <[fr := {["instances" := VList (map VDict refs)]}]> (heap w1);
                log := log w1; sent := sent w1 |}.
  split; [|split; [|split; [|split]]].
  - unfold preprocess, bind, getitem, iter. rewrite Hin, Hinst, Hrun. reflexivity.
  - destruct (heap w !! fr) as [o|] eqn:Ho; [|reflexivity].
    destruct (Hdom fr) as [o1 Ho1]; [eauto|]. congruence.
  - cbn. apply lookup_insert_eq.
  - exact Hsent.
  - intros r o Hr Ho. destruct (Hrefs r o Hr Ho) as (o' & Hn & Ho').
    exists o'. split; [exact Hn|]. cbn.
    rewrite lookup_insert_ne; [exact Ho'|]. intros <-. congruence.
Qed.
End PreprocessFacts.

(** ** The properties of the specification *)

Section NormalizerProperties.
Context {F : Type} {fl : FloatOps F} {lb : Libs F}.

(** C1, as amended.  For every Instance whose [data] field is a base64
    string encoding a valid image (of 8-bit samples), the normalizer decodes
    it, converts it to a numeric tensor with one channel per band of the
    image (a single channel for a single-band image, three for an RGB one),
    every value being a sample over 255, hence in [0,1], applies
    [(value - 0.1307) / 0.3081] to every element, and replaces the [data]
    field of the Instance by the resulting nested sequence of floats; the
    Instance itself is returned. *)
Theorem image_transform_normalizes (w : world F) (r : loc)
    (o : gmap string (value F)) (data : value F) (pic : Image) :
  heap w !! r = Some o ->
  o !! "data" = Some data ->
  encodes data pic ->
  Image_wf pic = true ->
  length (to_tensor pic) = length (getbands (im_mode pic))
  /\ (forall ch row v, ch ∈ to_tensor pic -> row ∈ ch -> v ∈ row -> scaled v)
  /\ fst (image_transform (VDict r) w) = Returns (VDict r)
  /\ heap (snd (image_transform (VDict r) w)) !! r
     = Some (<["data" := nested (map (map (map standardize)) (to_tensor pic))]> o).
Proof.
  intros Hr Hdata Henc Hwf.
  split; [apply to_tensor_channels|].
  split; [intros ch row v; apply to_tensor_scaled; exact Hwf|].
  rewrite (image_transform_store w r o Hr).
  rewrite (normalizer_image o data pic Hdata Henc). cbn.
  split; [reflexivity|]. apply lookup_insert_eq.
Qed.

(** C5, as amended.  For every Instance whose [data] field is a string
    that [base64.b64decode] refuses, or base64 whose decoded bytes are not a
    parseable image, the normalizer fails with a decode error and the world
    is as before the call: the [data] field and every other field of the
    Instance are unchanged.  (Malformed text that the decoder does not
    refuse is decoded like the well-formed text it contains.) *)
Theorem image_transform_decode_error (w : world F) (r : loc)
    (o : gmap string (value F)) (data : value F) :
  heap w !! r = Some o ->
  o !! "data" = Some data ->
  refused_base64 data \/ not_an_image data ->
  exists e, decode_error e = true /\ image_transform (VDict r) w = (Raises e, w).
Proof.
  intros Hr Hdata Hbad. rewrite (image_transform_store w r o Hr).
  unfold normalizer. rewrite Hdata.
  destruct Hbad as [(s & e & -> & Hdec)|(s & bs & -> & Hdec & Hopen)].
  - exists e. rewrite Hdec. split; [|reflexivity].
    unfold b64decode in Hdec.
    destruct (forallb _ _); [|injection Hdec as <-; reflexivity].
    destruct (a2b_base64 s); [discriminate|]. injection Hdec as <-. reflexivity.
  - exists UnidentifiedImageError. rewrite Hdec. unfold open_image. rewrite Hopen.
    split; reflexivity.
Qed.
End NormalizerProperties.

(** C1 on the grayscale picture of the examples: one channel, of the two
    values [(0/255 - 0.1307) / 0.3081] and [(255/255 - 0.1307) / 0.3081]. *)
Lemma image_transform_normalizes_gray :
  (heap Concrete.example_world !! 1%positive = Some Concrete.gray_instance
   /\ Concrete.gray_instance !! "data" = Some (VStr Concrete.gray_pair)
   /\ encodes (lb := Concrete.offline) (VStr Concrete.gray_pair) Concrete.gray_image
   /\ Image_wf Concrete.gray_image = true)
  /\ (length (to_tensor Concrete.gray_image) = 1%nat
      /\ fst (image_transform (lb := Concrete.offline) (VDict 1%positive) Concrete.example_world)
         = Returns (VDict 1%positive)
      /\ heap (snd (image_transform (lb := Concrete.offline) (VDict 1%positive) Concrete.example_world))
           !! 1%positive
         = Some (<["data" := VList [VList [VList [VFloat (-1307 # 3081);
                                                  VFloat (8693 # 3081)]]]]>
                   Concrete.gray_instance)).
Proof.
  assert (Hr : heap Concrete.example_world !! 1%positive = Some Concrete.gray_instance)
    by (vm_compute; reflexivity).
  assert (Hdata : Concrete.gray_instance !! "data" = Some (VStr Concrete.gray_pair))
    by (vm_compute; reflexivity).
  assert (Henc : encodes (lb := Concrete.offline) (VStr Concrete.gray_pair)
                         Concrete.gray_image).
  { exists Concrete.gray_pair. eexists. split; [reflexivity|].
    split; vm_compute; reflexivity. }
  assert (Hwf : Image_wf Concrete.gray_image = true) by (vm_compute; reflexivity).
  split; [repeat split; assumption|].
  destruct (image_transform_normalizes (lb := Concrete.offline)
              Concrete.example_world 1%positive Concrete.gray_instance
              (VStr Concrete.gray_pair) Concrete.gray_image Hr Hdata Henc Hwf)
    as (Hch & _ & Hret & Hstore).
  split; [exact Hch|]. split; [exact Hret|]. exact Hstore.
Defined.

(** C1 as stated fails on the colour picture of the examples: its [data]
    is base64 of a valid image, and the normalizer leaves a tensor of three
    channels, one per band, not a single-channel one. *)
Lemma image_transform_rgb_three_channels :
  holds_image (lb := Concrete.offline) Concrete.example_world (VDict 2%positive)
              Concrete.rgb_image
  /\ Image_wf Concrete.rgb_image = true
  /\ length (to_tensor Concrete.rgb_image) = 3%nat
  /\ fst (image_transform (lb := Concrete.offline) (VDict 2%positive) Concrete.example_world)
     = Returns (VDict 2%positive)
  /\ heap (snd (image_transform (lb := Concrete.offline) (VDict 2%positive)
                                Concrete.example_world)) !! 2%positive
     = Some (<["data" := VList [VList [VList [VFloat (8693 # 3081)]];
                                VList [VList [VFloat (-1307 # 3081)]];
                                VList [VList [VFloat (189343 # 157131)]]]]>
               Concrete.rgb_instance).
Proof.
  split.
  { exists 2%positive, Concrete.rgb_instance, (VStr Concrete.rgb_pixel).
    split; [reflexivity|]. split; [vm_compute; reflexivity|].
    split; [vm_compute; reflexivity|].
    exists Concrete.rgb_pixel. eexists. split; [reflexivity|].
    split; vm_compute; reflexivity. }
  split; [vm_compute; reflexivity|].
  split; [reflexivity|].
  assert (Hr : heap Concrete.example_world !! 2%positive = Some Concrete.rgb_instance)
    by (vm_compute; reflexivity).
  rewrite (image_transform_store (lb := Concrete.offline) _ _ _ Hr).
  assert (Hn : normalizer (lb := Concrete.offline) Concrete.rgb_instance
               = Returns (<["data" := VList [VList [VList [VFloat (8693 # 3081)]];
                                             VList [VList [VFloat (-1307 # 3081)]];
                                             VList [VList [VFloat (189343 # 157131)]]]]>
                            Concrete.rgb_instance)).
  { rewrite (normalizer_image (lb := Concrete.offline) Concrete.rgb_instance
               (VStr Concrete.rgb_pixel) Concrete.rgb_image).
    - reflexivity.
    - vm_compute; reflexivity.
    - exists Concrete.rgb_pixel. eexists. split; [reflexivity|].
      split; vm_compute; reflexivity. }
  rewrite Hn. cbn [fst snd heap]. split; [reflexivity|]. apply lookup_insert_eq.
Qed.

(** C5, as amended, on the string [not-base64!!]: the base64 decoder
    refuses it, and the normalizer raises its error and leaves the world as
    it was. *)
Lemma image_transform_rejects_not_base64 :
  (heap Concrete.example_world !! 3%positive = Some Concrete.bad_instance
   /\ Concrete.bad_instance !! "data" = Some (VStr "not-base64!!")
   /\ refused_base64 (lb := Concrete.offline) (VStr (F := Q) "not-base64!!"))
  /\ exists e,
       decode_error e = true
       /\ image_transform (lb := Concrete.offline) (VDict 3%positive) Concrete.example_world
          = (Raises e, Concrete.example_world).
Proof.
  assert (Hr : heap Concrete.example_world !! 3%positive = Some Concrete.bad_instance)
    by (vm_compute; reflexivity).
  assert (Hdata : Concrete.bad_instance !! "data" = Some (VStr "not-base64!!"))
    by (vm_compute; reflexivity).
  assert (Hbad : refused_base64 (lb := Concrete.offline) (VStr (F := Q) "not-base64!!")).
  { exists "not-base64!!", binascii_Error. split; [reflexivity|]. vm_compute. reflexivity. }
  split; [repeat split; assumption|].
  exact (image_transform_decode_error (lb := Concrete.offline) Concrete.example_world
           3%positive Concrete.bad_instance (VStr "not-base64!!") Hr Hdata (or_introl Hbad)).
Defined.

Section PreprocessProperties.
Context {F : Type} {fl : FloatOps F} {lb : Libs F}.
Import ImageTransformer.

(** C2.  For every Request whose [instances] value is a sequence of N
    Instances (N distinct dictionaries) each holding valid image data,
    [preprocess] returns a mapping with the single key [instances] whose
    value has exactly N elements; the i-th of them is the i-th input
    Instance, and what it holds is the normalizer applied to what the i-th
    input Instance held. *)
Theorem preprocess_maps_normalizer (s : self) (w : world F) (inputs : value F)
    (io : gmap string (value F)) (refs : list loc)
    (headers : option (gmap string string)) :
  contents w inputs = Some io ->
  io !! "instances" = Some (VList (map VDict refs)) ->
  NoDup refs ->
  (forall r, r ∈ refs -> exists pic, holds_image w (VDict r) pic) ->
  exists (out : value F) (outs : list (value F)) (w' : world F),
    preprocess s inputs headers w = (Returns out, w')
    /\ contents w' out = Some {["instances" := VList outs]}
    /\ length outs = length refs
    /\ forall i r, refs !! i = Some r ->
         outs !! i = Some (VDict r)
         /\ exists o o',
              contents w (VDict r) = Some o
              /\ normalizer o = Returns o'
              /\ contents w' (VDict r) = Some o'.
Proof.
  intros Hin Hinst Hnd Hvalid.
  destruct (preprocess_images s w inputs io refs headers Hin Hinst Hnd Hvalid)
    as (fr & w' & Hrun & _ & Hout & _ & Hrefs).
  exists (VDict fr), (map VDict refs), w'.
  split; [exact Hrun|]. split; [exact Hout|]. split; [apply length_map|].
  intros i r Hi. split.
  - rewrite list_lookup_fmap, Hi. reflexivity.
  - assert (Hr : r ∈ refs) by (apply list_elem_of_lookup; eauto).
    destruct (Hvalid r Hr) as (pic & r' & o & data & [= <-] & Ho & _).
    destruct (Hrefs r o Hr Ho) as (o' & Hn & Ho').
    exists o, o'. cbn. auto.
Qed.

(** C7.  For every Request with valid image data, preprocessing replaces
    only the [data] field of each Instance: every other key of every
    Instance has in the output what it had in the input (its value, or its
    absence); and nothing but [data] is read: two Instances with the same
    [data] get the same outcome from the normalizer. *)
Theorem preprocess_frame (s : self) (w : world F) (inputs : value F)
    (io : gmap string (value F)) (refs : list loc)
    (headers : option (gmap string string)) :
  contents w inputs = Some io ->
  io !! "instances" = Some (VList (map VDict refs)) ->
  NoDup refs ->
  (forall r, r ∈ refs -> exists pic, holds_image w (VDict r) pic) ->
  (exists (out : value F) (w' : world F),
     preprocess s inputs headers w = (Returns out, w')
     /\ forall r o, r ∈ refs -> contents w (VDict r) = Some o ->
          exists o',
            contents w' (VDict r) = Some o'
            /\ forall k, k <> "data" -> o' !! k = o !! k)
  /\ (forall (w1 w2 : world F) (r : loc) (o1 o2 : gmap string (value F)),
        heap w1 !! r = Some o1 -> heap w2 !! r = Some o2 ->
        o1 !! "data" = o2 !! "data" ->
        fst (image_transform (VDict r) w1) = fst (image_transform (VDict r) w2)).
Proof.
  intros Hin Hinst Hnd Hvalid. split.
  - destruct (preprocess_images s w inputs io refs headers Hin Hinst Hnd Hvalid)
      as (fr & w' & Hrun & _ & _ & _ & Hrefs).
    exists (VDict fr), w'. split; [exact Hrun|].
    intros r o Hr Ho. cbn in Ho.
    destruct (Hrefs r o Hr Ho) as (o' & Hn & Ho').
    exists o'. split; [exact Ho'|].
    intros k Hk. apply (normalizer_frame o o' k Hn Hk).
  - intros w1 w2 r o1 o2 H1 H2 Hdata.
    rewrite (image_transform_store w1 r o1 H1), (image_transform_store w2 r o2 H2).
    pose proof (normalizer_reads_data o1 o2 Hdata) as Hsame.
    destruct (normalizer o1), (normalizer o2); cbn; try contradiction.
    + reflexivity.
    + congruence.
Qed.

(** C8.  [postprocess] is the identity: it returns its input, and the
    world is as before. *)
Theorem postprocess_identity (s : self) (x : value F) (w : world F) :
  postprocess s x w = (Returns x, w).
Proof. reflexivity. Qed.
End PreprocessProperties.

Section ExplainProperties.
Context {F : Type} {fl : FloatOps F} {lb : Libs F}.
Import ImageTransformer.

(** C3.  With an explainer host configured and an upstream response whose
    body parses as JSON, [explain] returns the parsed body if and only if
    the status is 200; for every other status it fails with an HTTP error
    that carries the status code and the body of the response.  (With
    status 200 the result is whatever [json.loads] makes of the body.) *)
Theorem explain_relays_upstream (s : self) (host : string) (request : value F)
    (headers : option (gmap string string)) (w : world F) (payload : string)
    (response : HTTPResponse) :
  explainer_host s = Some host ->
  json_dumps (heap w) request = Returns payload ->
  fetch {| url := "http://" ++ host ++ "/v1/models/" ++ name s ++ ":explain";
           method := "POST";
           request_timeout := timeout s;
           body := payload;
           headers := None |} = Returns response ->
  (code response <> 200 ->
     fst (explain s request headers w)
     = Raises (HTTPError (code response) (response_body response)))
  /\ (code response = 200 ->
        fst (explain s request headers w)
        = match json_loads (response_body response) with
          | Some j => Returns j
          | None => Raises JSONDecodeError
          end)
  /\ (forall j, json_loads (response_body response) = Some j ->
        (fst (explain s request headers w) = Returns j <-> code response = 200)).
Proof.
  intros Hhost Hdumps Hfetch.
  rewrite (explain_configured s host request headers w payload Hhost Hdumps).
  cbv zeta. rewrite Hfetch.
  destruct (Z.eqb_spec (code response) 200) as [Heq|Hne].
  - split; [intros Hc; contradiction|]. split.
    + intros _. destruct (json_loads (response_body response)); reflexivity.
    + intros j Hj. rewrite Hj. cbn. split; auto.
  - split; [intros _; reflexivity|]. split; [intros Hc; contradiction|].
    intros j Hj. cbn. split; [discriminate|intros Hc; contradiction].
Qed.

(** C4.  Without an explainer host, [explain] fails with the not
    implemented error whatever the request and the headers, and the world
    is as before: no HTTP request has gone out. *)
Theorem explain_not_implemented (s : self) (request : value F)
    (headers : option (gmap string string)) (w : world F) :
  explainer_host s = None ->
  explain s request headers w = (Raises NotImplementedError, w)
  /\ sent (snd (explain s request headers w)) = sent w.
Proof.
  intros Hhost. rewrite (explain_unconfigured s request headers w Hhost).
  split; reflexivity.
Qed.

(** C9.  For a transformer constructed with a host and every request that
    serializes to JSON, [explain] sends exactly one request, whatever the
    upstream does with it: a POST to
    [http://{explainer_host}/v1/models/{model_name}:explain] whose body is
    the serialization of the request and whose timeout is 100. *)
Theorem explain_single_post (model host : string) (s : self) (w0 : world F)
    (request : value F) (headers : option (gmap string string)) (w : world F)
    (payload : string) :
  fst (__init__ model (Some host) w0) = Returns s ->
  json_dumps (heap w) request = Returns payload ->
  sent (snd (explain s request headers w))
  = (sent w ++ [{| url := "http://" ++ host ++ "/v1/models/" ++ model ++ ":explain";
                   method := "POST";
                   request_timeout := 100;
                   body := payload;
                   headers := None |}])%list.
Proof.
  intros Hinit Hdumps.
  destruct (init_returns model (Some host) w0) as (w1 & Hrun & _).
  rewrite Hrun in Hinit. injection Hinit as <-.
  rewrite (explain_configured
             {| name := model; predictor_host := Some host;
                explainer_host := Some host; timeout := 100 |}
             host request headers w payload eq_refl Hdumps).
  cbv zeta. cbn [name timeout].
  destruct (fetch _) as [response|e]; [|reflexivity].
  destruct (Z.eqb (code response) 200); [|reflexivity].
  destruct (json_loads (response_body response)); reflexivity.
Qed.

(** C10.  [explain] ignores its headers: with any two header mappings
    (or none) the outcome and the world after the call are the same, so the
    same request goes out; and a request that [explain] sends carries no
    headers. *)
Theorem explain_ignores_headers (s : self) (request : value F)
    (headers1 headers2 : option (gmap string string)) (w : world F) :
  explain s request headers1 w = explain s request headers2 w
  /\ (forall rq, rq ∈ sent (snd (explain s request headers1 w)) ->
        rq ∈ sent w \/ (headers rq = None /\ method rq = "POST")).
Proof.
  split; [reflexivity|].
  intros rq Hrq.
  destruct (explainer_host s) as [host|] eqn:Hhost.
  - destruct (json_dumps (heap w) request) as [payload|e] eqn:Hdumps.
    + rewrite (explain_configured s host request headers1 w payload Hhost Hdumps) in Hrq.
      cbv zeta in Hrq.
      assert (Hin : rq ∈ (sent w ++
                [{| url := "http://" ++ host ++ "/v1/models/" ++ name s ++ ":explain";
                    method := "POST"; request_timeout := timeout s;
                    body := payload; headers := None |}])%list).
      { destruct (fetch _) as [response|e]; [|exact Hrq].
        destruct (Z.eqb (code response) 200); [|exact Hrq].
        destruct (json_loads (response_body response)); exact Hrq. }
      apply elem_of_app in Hin as [Hold|Hnew]; [left; exact Hold|].
      apply list_elem_of_singleton in Hnew as ->. right. split; reflexivity.
    + destruct (explain_unserializable s host request headers1 w e Hhost Hdumps) as [_ Hsent].
      rewrite Hsent in Hrq. left. exact Hrq.
  - rewrite (explain_unconfigured s request headers1 w Hhost) in Hrq. left. exact Hrq.
Qed.

(** C6.  The predictor host is used by none of the hooks: two
    configurations that differ in the predictor host only (same model name,
    same explainer host, same timeout) give the same outcome and the same
    world, outbound requests included, for [preprocess], [postprocess] and
    [explain].  Recorded with it: the constructor stores the host it is
    given in both attributes, and [preprocess] and [postprocess] do not
    depend on the transformer at all. *)
Theorem predictor_host_attribute_unread (s1 s2 : self) :
  name s1 = name s2 ->
  explainer_host s1 = explainer_host s2 ->
  timeout s1 = timeout s2 ->
  (forall inputs headers (w : world F),
     preprocess s1 inputs headers w = preprocess s2 inputs headers w)
  /\ (forall x (w : world F), postprocess s1 x w = postprocess s2 x w)
  /\ (forall request headers (w : world F),
        explain s1 request headers w = explain s2 request headers w)
  /\ (forall model host (w : world F) s,
        fst (__init__ model host w) = Returns s ->
        predictor_host s = host /\ explainer_host s = host)
  /\ (forall (s s' : self) inputs headers (w : world F),
        preprocess s inputs headers w = preprocess s' inputs headers w
        /\ postprocess s inputs w = postprocess s' inputs w).
Proof.
  intros Hname Hhost Htimeout.
  split; [reflexivity|]. split; [reflexivity|]. split.
  - intros request headers w. unfold explain.
    rewrite Hname, Hhost, Htimeout. reflexivity.
  - split.
    + intros model host w s Hs. cbn in Hs. injection Hs as <-. split; reflexivity.
    + intros s s' inputs headers w. split; reflexivity.
Qed.
End ExplainProperties.

(** ** The properties on the examples *)

Lemma example_gray_holds :
  holds_image (lb := Concrete.offline) Concrete.example_world (VDict 1%positive)
              Concrete.gray_image.
Proof.
  exists 1%positive, Concrete.gray_instance, (VStr Concrete.gray_pair).
  split; [reflexivity|]. split; [vm_compute; reflexivity|].
  split; [vm_compute; reflexivity|].
  exists Concrete.gray_pair. eexists. split; [reflexivity|].
  split; vm_compute; reflexivity.
Qed.

Lemma example_rgb_holds :
  holds_image (lb := Concrete.offline) Concrete.example_world (VDict 2%positive)
              Concrete.rgb_image.
Proof.
  exists 2%positive, Concrete.rgb_instance, (VStr Concrete.rgb_pixel).
  split; [reflexivity|]. split; [vm_compute; reflexivity|].
  split; [vm_compute; reflexivity|].
  exists Concrete.rgb_pixel. eexists. split; [reflexivity|].
  split; vm_compute; reflexivity.
Qed.

Lemma example_instances_hold (r : loc) :
  r ∈ [1%positive; 2%positive] ->
  exists pic, holds_image (lb := Concrete.offline) Concrete.example_world (VDict r) pic.
Proof.
  intros Hr. apply elem_of_cons in Hr as [->|Hr].
  - exists Concrete.gray_image. apply example_gray_holds.
  - apply list_elem_of_singleton in Hr as ->.
    exists Concrete.rgb_image. apply example_rgb_holds.
Qed.

Lemma example_instances_distinct : NoDup [1%positive; 2%positive].
Proof.
  apply NoDup_cons. split; [|apply NoDup_singleton].
  intros Hin. apply list_elem_of_singleton in Hin. discriminate.
Qed.

Lemma example_request_contents :
  contents Concrete.example_world (VDict 4%positive)
  = Some {["instances" := VList (map VDict [1%positive; 2%positive])]}.
Proof. vm_compute. reflexivity. Qed.

Lemma example_request_instances :
  ({["instances" := VList (map VDict [1%positive; 2%positive])]}
     : gmap string (value Q)) !! "instances"
  = Some (VList (map VDict [1%positive; 2%positive])).
Proof. vm_compute. reflexivity. Qed.

(** C2 on the request of the examples, [{instances: [1, 2]}]. *)
Lemma preprocess_two_instances :
  (contents Concrete.example_world (VDict 4%positive)
   = Some {["instances" := VList (map VDict [1%positive; 2%positive])]}
   /\ ({["instances" := VList (map VDict [1%positive; 2%positive])]}
         : gmap string (value Q)) !! "instances"
      = Some (VList (map VDict [1%positive; 2%positive]))
   /\ NoDup [1%positive; 2%positive]
   /\ holds_image (lb := Concrete.offline) Concrete.example_world (VDict 1%positive)
                  Concrete.gray_image
   /\ holds_image (lb := Concrete.offline) Concrete.example_world (VDict 2%positive)
                  Concrete.rgb_image)
  /\ exists (out : value Q) (outs : list (value Q)) (w' : world Q),
       ImageTransformer.preprocess (lb := Concrete.offline) (Concrete.transformer None)
         (VDict 4%positive) None Concrete.example_world = (Returns out, w')
       /\ contents w' out = Some {["instances" := VList outs]}
       /\ length outs = 2%nat
       /\ forall i r, [1%positive; 2%positive] !! i = Some r ->
            outs !! i = Some (VDict r)
            /\ exists o o',
                 contents Concrete.example_world (VDict r) = Some o
                 /\ normalizer (lb := Concrete.offline) o = Returns o'
                 /\ contents w' (VDict r) = Some o'.
Proof.
  split.
  { split; [exact example_request_contents|].
    split; [exact example_request_instances|].
    split; [exact example_instances_distinct|].
    split; [exact example_gray_holds|exact example_rgb_holds]. }
  exact (preprocess_maps_normalizer (lb := Concrete.offline) (Concrete.transformer None)
           Concrete.example_world (VDict 4%positive) _ [1%positive; 2%positive] None
           example_request_contents example_request_instances
           example_instances_distinct example_instances_hold).
Defined.

(** C7 on the request of the examples: the [id] fields stay. *)
Lemma preprocess_keeps_other_fields :
  (contents Concrete.example_world (VDict 4%positive)
   = Some {["instances" := VList (map VDict [1%positive; 2%positive])]}
   /\ ({["instances" := VList (map VDict [1%positive; 2%positive])]}
         : gmap string (value Q)) !! "instances"
      = Some (VList (map VDict [1%positive; 2%positive]))
   /\ NoDup [1%positive; 2%positive]
   /\ holds_image (lb := Concrete.offline) Concrete.example_world (VDict 1%positive)
                  Concrete.gray_image
   /\ holds_image (lb := Concrete.offline) Concrete.example_world (VDict 2%positive)
                  Concrete.rgb_image)
  /\ exists (out : value Q) (w' : world Q),
       ImageTransformer.preprocess (lb := Concrete.offline) (Concrete.transformer None)
         (VDict 4%positive) None Concrete.example_world = (Returns out, w')
       /\ forall r o, r ∈ [1%positive; 2%positive] ->
            contents Concrete.example_world (VDict r) = Some o ->
            exists o',
              contents w' (VDict r) = Some o'
              /\ forall k, k <> "data" -> o' !! k = o !! k.
Proof.
  split.
  { split; [exact example_request_contents|].
    split; [exact example_request_instances|].
    split; [exact example_instances_distinct|].
    split; [exact example_gray_holds|exact example_rgb_holds]. }
  exact (proj1 (preprocess_frame (lb := Concrete.offline) (Concrete.transformer None)
                  Concrete.example_world (VDict 4%positive) _ [1%positive; 2%positive] None
                  example_request_contents example_request_instances
                  example_instances_distinct example_instances_hold)).
Defined.

Lemma example_payload_dumps (up : HTTPRequest -> outcome HTTPResponse) :
  json_dumps (Libs := Concrete.libs up) (heap Concrete.example_world) (VDict 4%positive)
  = Returns Concrete.example_payload.
Proof. vm_compute. reflexivity. Qed.

(** C3 on an upstream that answers 200 with the body
    [{"explanations": [1,2,3]}]: the result is that mapping. *)
Lemma explain_relays_explanations :
  (ImageTransformer.explainer_host (Concrete.transformer (Some "explainer:8080"))
   = Some "explainer:8080"
   /\ json_dumps (Libs := Concrete.libs (Concrete.answering 200 Concrete.explanations_body))
        (heap Concrete.example_world) (VDict 4%positive)
      = Returns Concrete.example_payload
   /\ fetch (Libs := Concrete.libs (Concrete.answering 200 Concrete.explanations_body))
        {| url := "http://explainer:8080/v1/models/mnist:explain";
           method := "POST";
           request_timeout := 100;
           body := Concrete.example_payload;
           headers := None |}
      = Returns {| code := 200; response_body := Concrete.explanations_body |}
   /\ json_loads (Libs := Concrete.libs (Concrete.answering 200 Concrete.explanations_body))
        Concrete.explanations_body
      = Some (JObj [("explanations", JArr [JInt 1; JInt 2; JInt 3])]))
  /\ fst (ImageTransformer.explain
            (lb := Concrete.libs (Concrete.answering 200 Concrete.explanations_body))
            (Concrete.transformer (Some "explainer:8080")) (VDict 4%positive) None
            Concrete.example_world)
     = Returns (JObj [("explanations", JArr [JInt 1; JInt 2; JInt 3])]).
Proof.
  assert (Hloads :
    json_loads (Libs := Concrete.libs (Concrete.answering 200 Concrete.explanations_body))
      Concrete.explanations_body
    = Some (JObj [("explanations", JArr [JInt 1; JInt 2; JInt 3])]))
    by (vm_compute; reflexivity).
  split.
  { split; [reflexivity|]. split; [exact (example_payload_dumps _)|].
    split; [reflexivity|exact Hloads]. }
  destruct (explain_relays_upstream
              (lb := Concrete.libs (Concrete.answering 200 Concrete.explanations_body))
              (Concrete.transformer (Some "explainer:8080")) "explainer:8080"
              (VDict 4%positive) None Concrete.example_world Concrete.example_payload
              {| code := 200; response_body := Concrete.explanations_body |}
              eq_refl (example_payload_dumps _) eq_refl)
    as (_ & _ & Hiff).
  apply (Hiff _ Hloads). reflexivity.
Defined.

(** The other example of the specification: an upstream that answers 500
    with the body [server error]. *)
Lemma explain_server_error :
  fst (ImageTransformer.explain
         (lb := Concrete.libs (Concrete.answering 500 "server error"))
         (Concrete.transformer (Some "explainer:8080")) (VDict 4%positive) None
         Concrete.example_world)
  = Raises (HTTPError 500 "server error").
Proof.
  rewrite (explain_configured
             (lb := Concrete.libs (Concrete.answering 500 "server error"))
             (Concrete.transformer (Some "explainer:8080")) "explainer:8080"
             (VDict 4%positive) None Concrete.example_world Concrete.example_payload
             eq_refl (example_payload_dumps _)).
  reflexivity.
Qed.

(** C4 on a transformer constructed without a host. *)
Lemma explain_not_implemented_unconfigured :
  (fst (ImageTransformer.__init__ "mnist" None Concrete.example_world)
   = Returns (Concrete.transformer None)
   /\ ImageTransformer.explainer_host (Concrete.transformer None) = None)
  /\ ImageTransformer.explain (lb := Concrete.offline) (Concrete.transformer None)
       (VDict 4%positive) None Concrete.example_world
     = (Raises NotImplementedError, Concrete.example_world)
  /\ sent (snd (ImageTransformer.explain (lb := Concrete.offline)
                  (Concrete.transformer None) (VDict 4%positive) None
                  Concrete.example_world))
     = [].
Proof.
  split; [split; reflexivity|].
  exact (explain_not_implemented (lb := Concrete.offline) (Concrete.transformer None)
           (VDict 4%positive) None Concrete.example_world eq_refl).
Defined.

(** C9 on the transformer of the examples: one POST, whether the upstream
    answers or not. *)
Lemma explain_posts_once :
  (fst (ImageTransformer.__init__ "mnist" (Some "explainer:8080") Concrete.example_world)
   = Returns (Concrete.transformer (Some "explainer:8080"))
   /\ json_dumps (Libs := Concrete.offline) (heap Concrete.example_world) (VDict 4%positive)
      = Returns Concrete.example_payload)
  /\ sent (snd (ImageTransformer.explain (lb := Concrete.offline)
                  (Concrete.transformer (Some "explainer:8080")) (VDict 4%positive) None
                  Concrete.example_world))
     = [{| url := "http://explainer:8080/v1/models/mnist:explain";
           method := "POST";
           request_timeout := 100;
           body := Concrete.example_payload;
           headers := None |}].
Proof.
  split; [split; [reflexivity|exact (example_payload_dumps _)]|].
  exact (explain_single_post (lb := Concrete.offline) "mnist" "explainer:8080"
           (Concrete.transformer (Some "explainer:8080")) Concrete.example_world
           (VDict 4%positive) None Concrete.example_world Concrete.example_payload
           eq_refl (example_payload_dumps _)).
Defined.

(** The constructor takes one host and stores it as the predictor host and
    as the explainer host: two transformers constructed for the same model
    with two hosts differ in their explainer hosts too, and [explain] posts
    to two different URLs. *)
Lemma constructor_predictor_host_decides_url :
  fst (ImageTransformer.__init__ "mnist" (Some "predictor-a") Concrete.example_world)
  = Returns (Concrete.transformer (Some "predictor-a"))
  /\ fst (ImageTransformer.__init__ "mnist" (Some "predictor-b") Concrete.example_world)
     = Returns (Concrete.transformer (Some "predictor-b"))
  /\ map url (sent (snd (ImageTransformer.explain (lb := Concrete.offline)
                           (Concrete.transformer (Some "predictor-a"))
                           (VDict 4%positive) None Concrete.example_world)))
     = ["http://predictor-a/v1/models/mnist:explain"]
  /\ map url (sent (snd (ImageTransformer.explain (lb := Concrete.offline)
                           (Concrete.transformer (Some "predictor-b"))
                           (VDict 4%positive) None Concrete.example_world)))
     = ["http://predictor-b/v1/models/mnist:explain"].
Proof.
  split; [reflexivity|]. split; [reflexivity|].
  split.
  - rewrite (explain_configured (lb := Concrete.offline)
               (Concrete.transformer (Some "predictor-a")) "predictor-a"
               (VDict 4%positive) None Concrete.example_world Concrete.example_payload
               eq_refl (example_payload_dumps _)).
    reflexivity.
  - rewrite (explain_configured (lb := Concrete.offline)
               (Concrete.transformer (Some "predictor-b")) "predictor-b"
               (VDict 4%positive) None Concrete.example_world Concrete.example_payload
               eq_refl (example_payload_dumps _)).
    reflexivity.
Qed.

(** C6 on two transformers that differ in the attribute [predictor_host]
    only. *)
Lemma predictor_host_attribute_unread_example :
  (ImageTransformer.name (Concrete.with_predictor "predictor-a")
   = ImageTransformer.name (Concrete.with_predictor "predictor-b")
   /\ ImageTransformer.explainer_host (Concrete.with_predictor "predictor-a")
      = ImageTransformer.explainer_host (Concrete.with_predictor "predictor-b")
   /\ ImageTransformer.timeout (Concrete.with_predictor "predictor-a")
      = ImageTransformer.timeout (Concrete.with_predictor "predictor-b"))
  /\ ImageTransformer.explain (lb := Concrete.offline)
       (Concrete.with_predictor "predictor-a") (VDict 4%positive) None
       Concrete.example_world
     = ImageTransformer.explain (lb := Concrete.offline)
         (Concrete.with_predictor "predictor-b") (VDict 4%positive) None
         Concrete.example_world
  /\ ImageTransformer.preprocess (lb := Concrete.offline)
       (Concrete.with_predictor "predictor-a") (VDict 4%positive) None
       Concrete.example_world
     = ImageTransformer.preprocess (lb := Concrete.offline)
         (Concrete.with_predictor "predictor-b") (VDict 4%positive) None
         Concrete.example_world.
Proof.
  split; [split; [reflexivity|split; reflexivity]|].
  destruct (predictor_host_attribute_unread (F := Q) (lb := Concrete.offline)
              (Concrete.with_predictor "predictor-a")
              (Concrete.with_predictor "predictor-b") eq_refl eq_refl eq_refl)
    as (Hpre & _ & Hexp & _).
  split; [apply Hexp|apply Hpre].
Defined.

(** In exact arithmetic a scaled value lies in the unit interval. *)
Lemma scaled_unit_interval (v : Q) : scaled v -> (0 <= v <= 1)%Q.
Proof.
  intros (p & Hp & ->). cbn [fdiv f_of_Z Concrete.Q_floats].
  rewrite Qred_correct.
  unfold Qle, Qdiv, Qmult, Qinv, inject_Z. cbn. lia.
Qed.

(** Why the Instances of C2 and C7 are distinct dictionaries: a request
    that lists one dictionary twice has it normalized at the first visit,
    and at the second its [data] is no longer a string. *)
Lemma preprocess_shared_instance :
  fst (ImageTransformer.preprocess (lb := Concrete.offline) (Concrete.transformer None)
         (VDict 5%positive) None Concrete.example_world)
  = Raises TypeError.
Proof. vm_compute. reflexivity. Qed.

(** ** Edge behaviour of the normalizer *)

Section NormalizerEdges.
Context {F : Type} {fl : FloatOps F} {lb : Libs F}.

(** Every call of [image_transform] either raises and leaves the world as
    it was, or is applied to a dictionary of the store that the normalizer
    accepts, writes the result back and logs once. *)
Lemma image_transform_cases (v : value F) (w : world F) :
  (exists e, image_transform v w = (Raises e, w))
  \/ (exists r o o',
        v = VDict r /\ heap w !! r = Some o /\ normalizer o = Returns o'
        /\ image_transform v w
           = (Returns (VDict r),
              {| heap := <[r := o']> (heap w);
                 log := log w ++ [info (VDict r) [] (<[r := o']> (heap w))];
                 sent := sent w |})).
Proof.
  destruct v as [| | | | | |r];
    try (left; exists TypeError; reflexivity).
  destruct (heap w !! r) as [o|] eqn:Hr.
  - rewrite (image_transform_store w r o Hr).
    destruct (normalizer o) as [o'|e] eqn:Hn.
    + right. exists r, o, o'. auto.
    + left. exists e. reflexivity.
  - left. exists ReferenceError.
    unfold image_transform, bind, getitem. rewrite Hr. reflexivity.
Qed.

(** What the normalizer returns has a list in its [data] field. *)
Lemma normalizer_data_list (o o' : gmap string (value F)) :
  normalizer o = Returns o' -> exists l, o' !! "data" = Some (VList l).
Proof.
  unfold normalizer. intros Hn.
  destruct (o !! "data") as [data|]; [|discriminate].
  destruct (b64decode data) as [bs|]; [|discriminate].
  destruct (open_image bs) as [pic|]; [|discriminate].
  destruct (image_processing (PILImage pic)) as [t|]; [|discriminate].
  destruct t as [pic'|t]; [discriminate|].
  cbn in Hn. injection Hn as <-. eexists. apply lookup_insert_eq.
Qed.

(** X1.  An Instance without a [data] field: [image_transform] raises
    [KeyError] for the key [data], and the world is as before. *)
Theorem image_transform_missing_data (w : world F) (r : loc)
    (o : gmap string (value F)) :
  heap w !! r = Some o ->
  o !! "data" = None ->
  image_transform (VDict r) w = (Raises (KeyError "data"), w).
Proof.
  intros Hr Hdata. rewrite (image_transform_store w r o Hr).
  unfold normalizer. rewrite Hdata. reflexivity.
Qed.

(** X2.  An Instance whose [data] is not a string (a number, a list,
    [None], a dictionary): [image_transform] raises [TypeError], and the
    world is as before. *)
Theorem image_transform_data_not_string (w : world F) (r : loc)
    (o : gmap string (value F)) (data : value F) :
  heap w !! r = Some o ->
  o !! "data" = Some data ->
  is_str data = false ->
  image_transform (VDict r) w = (Raises TypeError, w).
Proof.
  intros Hr Hdata Hstr. rewrite (image_transform_store w r o Hr).
  unfold normalizer. rewrite Hdata.
  destruct data; try discriminate; reflexivity.
Qed.

(** X3.  Whatever [image_transform] is applied to: when it raises, the
    world (store, log, sent requests) is as before the call; when it
    returns, it returns its argument. *)
Theorem image_transform_all_or_nothing (v : value F) (w : world F) :
  match image_transform v w with
  | (Raises _, w') => w' = w
  | (Returns v', _) => v' = v
  end.
Proof.
  destruct (image_transform_cases v w) as [(e & ->)|(r & o & o' & -> & _ & _ & ->)];
    reflexivity.
Qed.

(** X4.  [image_transform] is not idempotent: after a call that returned,
    a second call on the same Instance raises [TypeError], since [data] is
    now a list, and leaves the normalized Instance as it is. *)
Theorem image_transform_twice (w : world F) (r : loc) (v : value F) :
  fst (image_transform (VDict r) w) = Returns v ->
  image_transform (VDict r) (snd (image_transform (VDict r) w))
  = (Raises TypeError, snd (image_transform (VDict r) w)).
Proof.
  intros Hret.
  destruct (image_transform_cases (VDict r) w)
    as [(e & Hrun)|(r' & o & o' & [= <-] & Hr & Hn & Hrun)];
    rewrite Hrun in Hret |- *; [discriminate|].
  cbn [snd].
  destruct (normalizer_data_list o o' Hn) as [l Hl].
  apply (image_transform_data_not_string _ r o' (VList l)).
  - cbn. apply lookup_insert_eq.
  - exact Hl.
  - reflexivity.
Qed.

(** X5.  The footprint of a call of [image_transform] that returns: its
    argument is a dictionary of the store, no other dictionary changes, no
    key of the dictionary other than [data] changes, one record is added to
    the log, made after the replacement, and nothing is sent. *)
Theorem image_transform_footprint (v v' : value F) (w : world F) :
  fst (image_transform v w) = Returns v' ->
  exists r o o',
    v = VDict r
    /\ heap w !! r = Some o
    /\ heap (snd (image_transform v w)) !! r = Some o'
    /\ (forall k, k <> "data" -> o' !! k = o !! k)
    /\ (forall r', r' <> r -> heap (snd (image_transform v w)) !! r' = heap w !! r')
    /\ log (snd (image_transform v w))
       = (log w ++ [info v [] (heap (snd (image_transform v w)))])%list
    /\ sent (snd (image_transform v w)) = sent w.
Proof.
  intros Hret.
  destruct (image_transform_cases v w)
    as [(e & Hrun)|(r & o & o' & -> & Hr & Hn & Hrun)];
    rewrite Hrun in Hret |- *; [discriminate|].
  exists r, o, o'. cbn [snd heap log sent].
  split; [reflexivity|]. split; [exact Hr|].
  split; [apply lookup_insert_eq|].
  split.
  { intros k Hk. unfold normalizer in Hn.
    destruct (o !! "data") as [data|]; [|discriminate].
    destruct (b64decode data) as [bs|]; [|discriminate].
    destruct (open_image bs) as [pic|]; [|discriminate].
    destruct (image_processing (PILImage pic)) as [t|]; [|discriminate].
    destruct (tolist t) as [l|]; [|discriminate].
    injection Hn as <-. apply lookup_insert_ne. congruence. }
  split; [intros r' Hne; apply lookup_insert_ne; congruence|].
  split; reflexivity.
Qed.

Lemma Image_wf_size (pic : Image) :
  Image_wf pic = true ->
  length (im_pixels pic) = snd (im_size pic)
  /\ Forall (fun row => length row = fst (im_size pic)) (im_pixels pic).
Proof.
  unfold Image_wf. intros Hwf.
  apply andb_true_iff in Hwf as [Hh Hrows].
  split; [apply Nat.eqb_eq; exact Hh|].
  apply Forall_forall. intros row Hrow.
  rewrite forallb_forall in Hrows.
  apply list_elem_of_In in Hrow. apply Hrows in Hrow.
  apply andb_true_iff in Hrow as [Hw _]. apply Nat.eqb_eq. exact Hw.
Qed.

Lemma nested_has_shape (t : Tensor) (c h n : nat) :
  length t = c ->
  Forall (fun ch => length ch = h /\ Forall (fun row : list F => length row = n) ch) t ->
  has_shape [c; h; n] (nested t).
Proof.
  intros Hc Hchs. unfold nested. cbn [has_shape].
  eexists. split; [reflexivity|]. split; [rewrite length_map; exact Hc|].
  apply Forall_fmap. eapply Forall_impl; [exact Hchs|].
  intros ch [Hh Hrows]. cbn.
  eexists. split; [reflexivity|]. split; [rewrite length_map; exact Hh|].
  apply Forall_fmap. eapply Forall_impl; [exact Hrows|].
  intros row Hn. cbn.
  eexists. split; [reflexivity|]. split; [rewrite length_map; exact Hn|].
  apply Forall_fmap. apply Forall_forall. intros x _. cbn. eauto.
Qed.

(** X6.  The shape of the output: for an Instance that holds a
    well-formed image of width W, height H and C bands, the [data] field
    after [image_transform] is a list of C lists of H lists of W floats. *)
Theorem image_transform_shape (w : world F) (r : loc)
    (o : gmap string (value F)) (data : value F) (pic : Image) :
  heap w !! r = Some o ->
  o !! "data" = Some data ->
  encodes data pic ->
  Image_wf pic = true ->
  exists v o',
    heap (snd (image_transform (VDict r) w)) !! r = Some o'
    /\ o' !! "data" = Some v
    /\ has_shape [length (getbands (im_mode pic)); snd (im_size pic); fst (im_size pic)] v.
Proof.
  intros Hr Hdata Henc Hwf.
  rewrite (image_transform_store w r o Hr).
  rewrite (normalizer_image o data pic Hdata Henc). cbn [snd heap].
  eexists. eexists. split; [apply lookup_insert_eq|].
  split; [apply lookup_insert_eq|].
  destruct (Image_wf_size pic Hwf) as [Hh Hrows].
  apply nested_has_shape.
  - rewrite length_map. apply to_tensor_channels.
  - apply Forall_fmap. unfold to_tensor. apply Forall_fmap.
    apply Forall_forall. intros c _. cbn.
    split; [rewrite !length_map; exact Hh|].
    apply Forall_fmap. apply Forall_fmap.
    eapply Forall_impl; [exact Hrows|].
    intros row Hrow. cbn. rewrite !length_map. exact Hrow.
Qed.
End NormalizerEdges.

(** ** Edge behaviour of the batch wrapper *)

Section PreprocessEdges.
Context {F : Type} {fl : FloatOps F} {lb : Libs F}.
Import ImageTransformer.

(** A comprehension over a list in two parts: the second part runs in the
    world the first one leaves, and only when the first one returned. *)
Lemma comprehension_app {A B : Type} (f : A -> M F B) (xs ys : list A) :
  forall w : world F,
  comprehension f (xs ++ ys) w
  = match comprehension f xs w with
    | (Returns l1, w1) =>
        match comprehension f ys w1 with
        | (Returns l2, w2) => (Returns (l1 ++ l2)%list, w2)
        | (Raises e, w2) => (Raises e, w2)
        end
    | (Raises e, w1) => (Raises e, w1)
    end.
Proof.
  induction xs as [|x xs IH]; intros w.
  - cbn. destruct (comprehension f ys w) as [[l2|e] w2]; reflexivity.
  - cbn [app comprehension]. unfold bind.
    destruct (f x w) as [[y|e] w1]; [|reflexivity].
    rewrite IH.
    destruct (comprehension f xs w1) as [[l1|e] w2]; [|reflexivity].
    unfold ret. cbv beta iota.
    destruct (comprehension f ys w2) as [[l2|e] w3]; reflexivity.
Qed.

Lemma image_transform_sent (v : value F) (w : world F) :
  sent (snd (image_transform v w)) = sent w.
Proof.
  destruct (image_transform_cases v w) as [(e & ->)|(r & o & o' & _ & _ & _ & ->)];
    reflexivity.
Qed.

Lemma comprehension_sent (xs : list (value F)) :
  forall w : world F, sent (snd (comprehension image_transform xs w)) = sent w.
Proof.
  induction xs as [|x xs IH]; intros w; [reflexivity|].
  cbn [comprehension]. unfold bind at 1.
  pose proof (image_transform_sent x w) as Hx.
  destruct (image_transform x w) as [[y|e] w1]; cbn [snd] in Hx; [|exact Hx].
  unfold bind at 1. pose proof (IH w1) as Hxs.
  destruct (comprehension image_transform xs w1) as [[ys|e] w2];
    unfold ret; cbn [snd] in Hxs |- *; congruence.
Qed.

(** X7.  [preprocess] sends nothing: whatever the request, and whether
    it returns or raises, the outbound HTTP requests are those of
    before. *)
Theorem preprocess_never_sends (s : self) (inputs : value F)
    (headers : option (gmap string string)) (w : world F) :
  sent (snd (preprocess s inputs headers w)) = sent w.
Proof.
  unfold preprocess. unfold bind at 1.
  destruct (getitem inputs "instances" w) as [[instances|e] w1] eqn:Hget.
  - assert (w1 = w) as ->.
    { unfold getitem in Hget. destruct inputs; try (injection Hget as _ <-; reflexivity).
      destruct (heap w !! r) as [o|]; [|injection Hget as _ <-; reflexivity].
      destruct (o !! "instances"); injection Hget as _ <-; reflexivity. }
    unfold bind at 1.
    destruct (iter instances w) as [[xs|e] w2] eqn:Hiter.
    + assert (w2 = w) as ->.
      { unfold iter in Hiter. destruct instances; try (injection Hiter as _ <-; reflexivity).
        destruct (heap w !! r) as [o|]; injection Hiter as _ <-; reflexivity. }
      unfold bind. pose proof (comprehension_sent xs w) as Hxs.
      destruct (comprehension image_transform xs w) as [[out|e] w3]; cbn [snd] in Hxs |- *;
        exact Hxs.
    + unfold iter in Hiter. destruct instances; try (injection Hiter as _ <-; reflexivity).
      destruct (heap w !! r) as [o|]; injection Hiter as _ <-; reflexivity.
  - unfold getitem in Hget. destruct inputs; try (injection Hget as _ <-; reflexivity).
    destruct (heap w !! r) as [o|]; [|injection Hget as _ <-; reflexivity].
    destruct (o !! "instances"); injection Hget as _ <-; reflexivity.
Qed.

(** X8.  A request without the key [instances]: [preprocess] raises
    [KeyError] for that key, and the world is as before. *)
Theorem preprocess_missing_instances (s : self) (w : world F) (inputs : value F)
    (io : gmap string (value F)) (headers : option (gmap string string)) :
  contents w inputs = Some io ->
  io !! "instances" = None ->
  preprocess s inputs headers w = (Raises (KeyError "instances"), w).
Proof.
  intros Hin Hinst. destruct inputs as [| | | | | |ri]; try discriminate. cbn in Hin.
  unfold preprocess, bind, getitem. rewrite Hin, Hinst. reflexivity.
Qed.

(** X9.  A request whose [instances] is an empty list or an empty
    string: [preprocess] returns a new mapping whose [instances] is the
    empty list; no Instance is touched and nothing is logged. *)
Theorem preprocess_empty (s : self) (w : world F) (inputs instances : value F)
    (io : gmap string (value F)) (headers : option (gmap string string)) :
  contents w inputs = Some io ->
  io !! "instances" = Some instances ->
  instances = VList [] \/ instances = VStr "" ->
  exists fresh_r : loc,
    heap w !! fresh_r = None
    /\ preprocess s inputs headers w
       = (Returns (VDict fresh_r),
          {| heap := <[fresh_r := {["instances" := VList []]}]> (heap w);
             log := log w;
             sent := sent w |}).
Proof.
  intros Hin Hinst Hempty. destruct inputs as [| | | | | |ri]; try discriminate.
  cbn in Hin. exists (fresh (dom (heap w))). split.
  - apply not_elem_of_dom. apply is_fresh.
  - unfold preprocess, bind, getitem. rewrite Hin, Hinst.
    destruct Hempty as [-> | ->]; reflexivity.
Qed.

(** X10.  A request whose [instances] cannot be iterated over ([None],
    a boolean, a number): [preprocess] raises [TypeError], and the world is
    as before. *)
Theorem preprocess_not_iterable (s : self) (w : world F) (inputs instances : value F)
    (io : gmap string (value F)) (headers : option (gmap string string)) :
  contents w inputs = Some io ->
  io !! "instances" = Some instances ->
  not_iterable instances = true ->
  preprocess s inputs headers w = (Raises TypeError, w).
Proof.
  intros Hin Hinst Hnot. destruct inputs as [| | | | | |ri]; try discriminate.
  cbn in Hin. unfold preprocess, bind, getitem. rewrite Hin, Hinst.
  destruct instances; try discriminate; reflexivity.
Qed.

(** X11.  [preprocess] is not atomic.  When the Instances before the
    first one that the normalizer refuses are distinct dictionaries that
    hold images, [preprocess] raises the exception of that one; the
    Instances before it stay normalized, every other dictionary (the
    refused one and whatever comes after it included) is as before, no
    result mapping is made, and nothing is sent. *)
Theorem preprocess_stops_at_first_failure (s : self) (w : world F) (inputs : value F)
    (io : gmap string (value F)) (pre : list loc) (r : loc) (o : gmap string (value F))
    (e : exn) (rest : list (value F)) (headers : option (gmap string string)) :
  contents w inputs = Some io ->
  io !! "instances" = Some (VList (map VDict pre ++ VDict r :: rest)) ->
  NoDup pre ->
  (forall p, p ∈ pre -> exists pic, holds_image w (VDict p) pic) ->
  r ∉ pre ->
  heap w !! r = Some o ->
  normalizer o = Raises e ->
  fst (preprocess s inputs headers w) = Raises e
  /\ (forall p po, p ∈ pre -> heap w !! p = Some po ->
        exists po', normalizer po = Returns po'
                    /\ heap (snd (preprocess s inputs headers w)) !! p = Some po')
  /\ (forall q, q ∉ pre -> heap (snd (preprocess s inputs headers w)) !! q = heap w !! q)
  /\ sent (snd (preprocess s inputs headers w)) = sent w.
Proof.
  intros Hin Hinst Hnd Hvalid Hr Ho Hn.
  destruct inputs as [| | | | | |ri]; try discriminate. cbn in Hin.
  destruct (comprehension_image_transform pre w Hnd) as (w1 & Hrun & Hsent & Hout & Hpre).
  { intros p Hp. destruct (Hvalid p Hp) as [pic Hpic].
    apply (holds_image_normalizer w p pic Hpic). }
  assert (Hfail : image_transform (VDict r) w1 = (Raises e, w1)).
  { rewrite (image_transform_store w1 r o); [rewrite Hn; reflexivity|].
    rewrite (Hout r Hr). exact Ho. }
  assert (Hall : preprocess s (VDict ri) headers w = (Raises e, w1)).
  { unfold preprocess, bind, getitem, iter. rewrite Hin, Hinst.
    rewrite comprehension_app, Hrun. cbn [comprehension]. unfold bind.
    rewrite Hfail. reflexivity. }
  rewrite Hall. cbn [fst snd].
  split; [reflexivity|]. split; [exact Hpre|]. split; [exact Hout|exact Hsent].
Qed.

Lemma comprehension_log (refs : list loc) : forall w : world F,
  NoDup refs ->
  (forall r, r ∈ refs -> exists o o', heap w !! r = Some o /\ normalizer o = Returns o') ->
  map log_msg (log (snd (comprehension image_transform (map VDict refs) w)))
  = (map log_msg (log w) ++ map VDict refs)%list.
Proof.
  induction refs as [|r refs IH]; intros w Hnd Hvalid.
  - cbn. rewrite app_nil_r. reflexivity.
  - apply NoDup_cons in Hnd as [Hr Hnd].
    destruct (Hvalid r) as (o & o' & Ho & Hn); [left|].
    set (w1 := {| heap := <[r := o']> (heap w);
                  log := log w ++ [info (VDict r) [] (<[r := o']> (heap w))];
                  sent := sent w |}).
    assert (Hstep : image_transform (VDict r) w = (Returns (VDict r), w1)).
    { rewrite (image_transform_store w r o Ho), Hn. reflexivity. }
    assert (Hrest : map log_msg (log (snd (comprehension image_transform (map VDict refs) w1)))
                    = (map log_msg (log w1) ++ map VDict refs)%list).
    { apply IH; [exact Hnd|].
      intros r' Hr'. destruct (Hvalid r') as (p & p' & Hp & Hpn); [right; exact Hr'|].
      exists p, p'. split; [|exact Hpn].
      cbn. rewrite lookup_insert_ne; [exact Hp|]. intros ->. contradiction. }
    cbn [map comprehension]. unfold bind at 1. rewrite Hstep. unfold bind at 1.
    destruct (comprehension image_transform (map VDict refs) w1) as [[ys|e] w2];
      unfold ret; cbn [snd] in Hrest |- *; rewrite Hrest; cbn [log w1];
      rewrite map_app, <- app_assoc; reflexivity.
Qed.

(** X12.  On a request of distinct Instances that hold images,
    [preprocess] calls [logging.info] once per Instance, in the order of the
    request, with the Instance as the message. *)
Theorem preprocess_logs_each_instance (s : self) (w : world F) (inputs : value F)
    (io : gmap string (value F)) (refs : list loc)
    (headers : option (gmap string string)) :
  contents w inputs = Some io ->
  io !! "instances" = Some (VList (map VDict refs)) ->
  NoDup refs ->
  (forall r, r ∈ refs -> exists pic, holds_image w (VDict r) pic) ->
  map log_msg (log (snd (preprocess s inputs headers w)))
  = (map log_msg (log w) ++ map VDict refs)%list.
Proof.
  intros Hin Hinst Hnd Hvalid.
  destruct inputs as [| | | | | |ri]; try discriminate. cbn in Hin.
  assert (Hlog := comprehension_log refs w Hnd).
  unfold preprocess, bind, getitem, iter. rewrite Hin, Hinst.
  destruct (comprehension image_transform (map VDict refs) w) as [[out|e] w1];
    cbn [snd log] in Hlog |- *; apply Hlog;
    intros r Hr; destruct (Hvalid r Hr) as [pic Hpic];
    apply (holds_image_normalizer w r pic Hpic).
Qed.
End PreprocessEdges.

(** ** Edge behaviour of the explain proxy *)

Section ExplainEdges.
Context {F : Type} {fl : FloatOps F} {lb : Libs F}.
Import ImageTransformer.

(** X13.  When the HTTP client raises (a timeout, a refused connection,
    its own HTTP error), [explain] raises the same exception; the request
    has gone out once and is not sent again. *)
Theorem explain_client_failure (s : self) (host : string) (request : value F)
    (headers : option (gmap string string)) (w : world F) (payload : string) (e : exn) :
  explainer_host s = Some host ->
  json_dumps (heap w) request = Returns payload ->
  fetch {| url := "http://" ++ host ++ "/v1/models/" ++ name s ++ ":explain";
           method := "POST";
           request_timeout := timeout s;
           body := payload;
           headers := None |} = Raises e ->
  fst (explain s request headers w) = Raises e
  /\ sent (snd (explain s request headers w))
     = (sent w ++ [{| url := "http://" ++ host ++ "/v1/models/" ++ name s ++ ":explain";
                      method := "POST";
                      request_timeout := timeout s;
                      body := payload;
                      headers := None |}])%list.
Proof.
  intros Hhost Hdumps Hfetch.
  rewrite (explain_configured s host request headers w payload Hhost Hdumps).
  cbv zeta. rewrite Hfetch. split; reflexivity.
Qed.
End ExplainEdges.

Section ExplainStore.
Context {F : Type} {fl : FloatOps F} {lb : Libs F}.
Import ImageTransformer.

(** X14.  When the request does not serialize to JSON (a dictionary that
    holds itself, say), [explain] raises the exception of [json.dumps]: the
    URL has been logged, and nothing has been sent. *)
Theorem explain_unserializable_sends_nothing (s : self) (host : string)
    (request : value F) (headers : option (gmap string string)) (w : world F) (e : exn) :
  explainer_host s = Some host ->
  json_dumps (heap w) request = Raises e ->
  explain s request headers w
  = (Raises e,
     {| heap := heap w;
        log := log w ++ [info (VStr "Inside Image Transformer explain %s")
                              [VStr ("http://" ++ host ++ "/v1/models/" ++ name s ++ ":explain")]
                              (heap w)];
        sent := sent w |}).
Proof.
  intros Hhost Hdumps. unfold explain. rewrite Hhost.
  unfold bind, logging_info, dumps. cbn [heap log sent].
  rewrite Hdumps, explainer_url. reflexivity.
Qed.

(** X15.  [explain] never changes the store: whatever the transformer,
    the request, the headers and the upstream, every dictionary is after
    the call what it was before. *)
Theorem explain_preserves_store (s : self) (request : value F)
    (headers : option (gmap string string)) (w : world F) :
  heap (snd (explain s request headers w)) = heap w.
Proof.
  destruct (explainer_host s) as [host|] eqn:Hhost.
  - destruct (json_dumps (heap w) request) as [payload|e] eqn:Hdumps.
    + rewrite (explain_configured s host request headers w payload Hhost Hdumps).
      cbv zeta.
      destruct (fetch _) as [response|e]; [|reflexivity].
      destruct (Z.eqb (code response) 200); [|reflexivity].
      destruct (json_loads (response_body response)); reflexivity.
    + unfold explain. rewrite Hhost.
      unfold bind, logging_info, dumps. cbn [heap log sent].
      rewrite Hdumps. reflexivity.
  - rewrite (explain_unconfigured s request headers w Hhost). reflexivity.
Qed.
End ExplainStore.

(** ** The edge behaviour on the examples *)

Lemma edge_gray_holds (r : loc) :
  r ∈ [1%positive] ->
  exists pic, holds_image (lb := Concrete.offline) Concrete.edge_world (VDict r) pic.
Proof.
  intros Hr. apply list_elem_of_singleton in Hr as ->.
  exists Concrete.gray_image.
  exists 1%positive, Concrete.gray_instance, (VStr Concrete.gray_pair).
  split; [reflexivity|]. split; [vm_compute; reflexivity|].
  split; [vm_compute; reflexivity|].
  exists Concrete.gray_pair. eexists. split; [reflexivity|].
  split; vm_compute; reflexivity.
Qed.

Lemma example_gray_returns :
  fst (image_transform (lb := Concrete.offline) (VDict 1%positive) Concrete.example_world)
  = Returns (VDict 1%positive).
Proof. vm_compute. reflexivity. Qed.

(** X1 on the Instance without [data]. *)
Lemma image_transform_missing_data_example :
  (heap Concrete.edge_world !! 6%positive = Some {["id" := VInt 10]}
   /\ ({["id" := VInt 10]} : gmap string (value Q)) !! "data" = None)
  /\ image_transform (lb := Concrete.offline) (VDict 6%positive) Concrete.edge_world
     = (Raises (KeyError "data"), Concrete.edge_world).
Proof.
  assert (Hr : heap Concrete.edge_world !! 6%positive = Some {["id" := VInt 10]})
    by (vm_compute; reflexivity).
  assert (Hdata : ({["id" := VInt 10]} : gmap string (value Q)) !! "data" = None)
    by (vm_compute; reflexivity).
  split; [split; assumption|].
  exact (image_transform_missing_data (lb := Concrete.offline) Concrete.edge_world
           6%positive _ Hr Hdata).
Defined.

(** X2 on the Instance whose [data] is the number 42. *)
Lemma image_transform_data_not_string_example :
  (heap Concrete.edge_world !! 7%positive = Some {["data" := VInt 42]}
   /\ ({["data" := VInt 42]} : gmap string (value Q)) !! "data" = Some (VInt 42)
   /\ is_str (VInt (F := Q) 42) = false)
  /\ image_transform (lb := Concrete.offline) (VDict 7%positive) Concrete.edge_world
     = (Raises TypeError, Concrete.edge_world).
Proof.
  assert (Hr : heap Concrete.edge_world !! 7%positive = Some {["data" := VInt 42]})
    by (vm_compute; reflexivity).
  assert (Hdata : ({["data" := VInt 42]} : gmap string (value Q)) !! "data"
                  = Some (VInt 42))
    by (vm_compute; reflexivity).
  split; [split; [assumption|split; [assumption|reflexivity]]|].
  exact (image_transform_data_not_string (lb := Concrete.offline) Concrete.edge_world
           7%positive _ (VInt 42) Hr Hdata eq_refl).
Defined.

(** X4 on the grayscale Instance. *)
Lemma image_transform_twice_example :
  fst (image_transform (lb := Concrete.offline) (VDict 1%positive) Concrete.example_world)
  = Returns (VDict 1%positive)
  /\ image_transform (lb := Concrete.offline) (VDict 1%positive)
       (snd (image_transform (lb := Concrete.offline) (VDict 1%positive)
               Concrete.example_world))
     = (Raises TypeError,
        snd (image_transform (lb := Concrete.offline) (VDict 1%positive)
               Concrete.example_world)).
Proof.
  split; [exact example_gray_returns|].
  exact (image_transform_twice (lb := Concrete.offline) Concrete.example_world
           1%positive (VDict 1%positive) example_gray_returns).
Defined.

(** X5 on the grayscale Instance. *)
Lemma image_transform_footprint_example :
  fst (image_transform (lb := Concrete.offline) (VDict 1%positive) Concrete.example_world)
  = Returns (VDict 1%positive)
  /\ exists r o o',
       VDict (F := Q) 1%positive = VDict r
       /\ heap Concrete.example_world !! r = Some o
       /\ heap (snd (image_transform (lb := Concrete.offline) (VDict 1%positive)
                       Concrete.example_world)) !! r = Some o'
       /\ (forall k, k <> "data" -> o' !! k = o !! k)
       /\ (forall r', r' <> r ->
             heap (snd (image_transform (lb := Concrete.offline) (VDict 1%positive)
                          Concrete.example_world)) !! r'
             = heap Concrete.example_world !! r')
       /\ log (snd (image_transform (lb := Concrete.offline) (VDict 1%positive)
                      Concrete.example_world))
          = (log Concrete.example_world
             ++ [info (VDict 1%positive) []
                      (heap (snd (image_transform (lb := Concrete.offline)
                                    (VDict 1%positive) Concrete.example_world)))])%list
       /\ sent (snd (image_transform (lb := Concrete.offline) (VDict 1%positive)
                       Concrete.example_world))
          = sent Concrete.example_world.
Proof.
  split; [exact example_gray_returns|].
  exact (image_transform_footprint (lb := Concrete.offline) (VDict 1%positive)
           (VDict 1%positive) Concrete.example_world example_gray_returns).
Defined.

(** X6 on the grayscale Instance: one channel of one row of two values. *)
Lemma image_transform_shape_example :
  (heap Concrete.example_world !! 1%positive = Some Concrete.gray_instance
   /\ Concrete.gray_instance !! "data" = Some (VStr Concrete.gray_pair)
   /\ encodes (lb := Concrete.offline) (VStr Concrete.gray_pair) Concrete.gray_image
   /\ Image_wf Concrete.gray_image = true)
  /\ exists v o',
       heap (snd (image_transform (lb := Concrete.offline) (VDict 1%positive)
                    Concrete.example_world)) !! 1%positive = Some o'
       /\ o' !! "data" = Some v
       /\ has_shape [1; 1; 2]%nat v.
Proof.
  assert (Hr : heap Concrete.example_world !! 1%positive = Some Concrete.gray_instance)
    by (vm_compute; reflexivity).
  assert (Hdata : Concrete.gray_instance !! "data" = Some (VStr Concrete.gray_pair))
    by (vm_compute; reflexivity).
  assert (Henc : encodes (lb := Concrete.offline) (VStr Concrete.gray_pair)
                         Concrete.gray_image).
  { exists Concrete.gray_pair. eexists. split; [reflexivity|].
    split; vm_compute; reflexivity. }
  assert (Hwf : Image_wf Concrete.gray_image = true) by (vm_compute; reflexivity).
  split; [repeat split; assumption|].
  exact (image_transform_shape (lb := Concrete.offline) Concrete.example_world
           1%positive Concrete.gray_instance (VStr Concrete.gray_pair)
           Concrete.gray_image Hr Hdata Henc Hwf).
Defined.

(** X8 on the request without [instances]. *)
Lemma preprocess_missing_instances_example :
  (contents Concrete.edge_world (VDict 9%positive) = Some {["inputs" := VList []]}
   /\ ({["inputs" := VList []]} : gmap string (value Q)) !! "instances" = None)
  /\ ImageTransformer.preprocess (lb := Concrete.offline) (Concrete.transformer None)
       (VDict 9%positive) None Concrete.edge_world
     = (Raises (KeyError "instances"), Concrete.edge_world).
Proof.
  assert (Hin : contents Concrete.edge_world (VDict 9%positive)
                = Some {["inputs" := VList []]})
    by (vm_compute; reflexivity).
  assert (Hinst : ({["inputs" := VList []]} : gmap string (value Q)) !! "instances" = None)
    by (vm_compute; reflexivity).
  split; [split; assumption|].
  exact (preprocess_missing_instances (lb := Concrete.offline) (Concrete.transformer None)
           Concrete.edge_world (VDict 9%positive) _ None Hin Hinst).
Defined.

(** X9 on the request with no Instance. *)
Lemma preprocess_empty_example :
  (contents Concrete.edge_world (VDict 10%positive) = Some {["instances" := VList []]}
   /\ ({["instances" := VList []]} : gmap string (value Q)) !! "instances"
      = Some (VList []))
  /\ exists fresh_r : loc,
       heap Concrete.edge_world !! fresh_r = None
       /\ ImageTransformer.preprocess (lb := Concrete.offline) (Concrete.transformer None)
            (VDict 10%positive) None Concrete.edge_world
          = (Returns (VDict fresh_r),
             {| heap := <[fresh_r := {["instances" := VList []]}]> (heap Concrete.edge_world);
                log := log Concrete.edge_world;
                sent := sent Concrete.edge_world |}).
Proof.
  assert (Hin : contents Concrete.edge_world (VDict 10%positive)
                = Some {["instances" := VList []]})
    by (vm_compute; reflexivity).
  assert (Hinst : ({["instances" := VList []]} : gmap string (value Q)) !! "instances"
                  = Some (VList []))
    by (vm_compute; reflexivity).
  split; [split; assumption|].
  exact (preprocess_empty (lb := Concrete.offline) (Concrete.transformer None)
           Concrete.edge_world (VDict 10%positive) (VList []) _ None Hin Hinst
           (or_introl eq_refl)).
Defined.

(** X10 on the request whose [instances] is [None]. *)
Lemma preprocess_not_iterable_example :
  (contents Concrete.edge_world (VDict 11%positive) = Some {["instances" := VNone]}
   /\ ({["instances" := VNone]} : gmap string (value Q)) !! "instances" = Some VNone
   /\ not_iterable (VNone (F := Q)) = true)
  /\ ImageTransformer.preprocess (lb := Concrete.offline) (Concrete.transformer None)
       (VDict 11%positive) None Concrete.edge_world
     = (Raises TypeError, Concrete.edge_world).
Proof.
  assert (Hin : contents Concrete.edge_world (VDict 11%positive)
                = Some {["instances" := VNone]})
    by (vm_compute; reflexivity).
  assert (Hinst : ({["instances" := VNone]} : gmap string (value Q)) !! "instances"
                  = Some VNone)
    by (vm_compute; reflexivity).
  split; [split; [assumption|split; [assumption|reflexivity]]|].
  exact (preprocess_not_iterable (lb := Concrete.offline) (Concrete.transformer None)
           Concrete.edge_world (VDict 11%positive) VNone _ None Hin Hinst eq_refl).
Defined.

Lemma edge_request_contents :
  contents Concrete.edge_world (VDict 8%positive)
  = Some {["instances" :=
             VList (map VDict [1%positive] ++ VDict 3%positive :: [VDict 2%positive])]}.
Proof. vm_compute. reflexivity. Qed.

Lemma edge_request_instances :
  ({["instances" :=
       VList (map VDict [1%positive] ++ VDict 3%positive :: [VDict 2%positive])]}
     : gmap string (value Q)) !! "instances"
  = Some (VList (map VDict [1%positive] ++ VDict 3%positive :: [VDict 2%positive])).
Proof. vm_compute. reflexivity. Qed.

Lemma edge_bad_not_first : 3%positive ∉ [1%positive].
Proof. intros Hin. apply list_elem_of_singleton in Hin. discriminate. Qed.

Lemma edge_bad_instance : heap Concrete.edge_world !! 3%positive = Some Concrete.bad_instance.
Proof. vm_compute. reflexivity. Qed.

Lemma edge_bad_refused :
  normalizer (lb := Concrete.offline) Concrete.bad_instance = Raises binascii_Error.
Proof. vm_compute. reflexivity. Qed.

(** X11 on the request [{instances: [1, 3, 2]}]: the Instance 3 is refused,
    the Instance 1 stays normalized, the Instance 2 is not reached. *)
Lemma preprocess_stops_at_first_failure_example :
  (contents Concrete.edge_world (VDict 8%positive)
   = Some {["instances" :=
              VList (map VDict [1%positive] ++ VDict 3%positive :: [VDict 2%positive])]}
   /\ ({["instances" :=
            VList (map VDict [1%positive] ++ VDict 3%positive :: [VDict 2%positive])]}
          : gmap string (value Q)) !! "instances"
      = Some (VList (map VDict [1%positive] ++ VDict 3%positive :: [VDict 2%positive]))
   /\ NoDup [1%positive]
   /\ (forall p, p ∈ [1%positive] ->
         exists pic,
           holds_image (lb := Concrete.offline) Concrete.edge_world (VDict p) pic)
   /\ 3%positive ∉ [1%positive]
   /\ heap Concrete.edge_world !! 3%positive = Some Concrete.bad_instance
   /\ normalizer (lb := Concrete.offline) Concrete.bad_instance = Raises binascii_Error)
  /\ fst (ImageTransformer.preprocess (lb := Concrete.offline) (Concrete.transformer None)
            (VDict 8%positive) None Concrete.edge_world)
     = Raises binascii_Error
  /\ (forall p po, p ∈ [1%positive] -> heap Concrete.edge_world !! p = Some po ->
        exists po',
          normalizer (lb := Concrete.offline) po = Returns po'
          /\ heap (snd (ImageTransformer.preprocess (lb := Concrete.offline)
                          (Concrete.transformer None) (VDict 8%positive) None
                          Concrete.edge_world)) !! p = Some po')
  /\ (forall q, q ∉ [1%positive] ->
        heap (snd (ImageTransformer.preprocess (lb := Concrete.offline)
                     (Concrete.transformer None) (VDict 8%positive) None
                     Concrete.edge_world)) !! q
        = heap Concrete.edge_world !! q)
  /\ sent (snd (ImageTransformer.preprocess (lb := Concrete.offline)
                  (Concrete.transformer None) (VDict 8%positive) None
                  Concrete.edge_world))
     = sent Concrete.edge_world.
Proof.
  split.
  { split; [exact edge_request_contents|]. split; [exact edge_request_instances|].
    split; [apply NoDup_singleton|]. split; [exact edge_gray_holds|].
    split; [exact edge_bad_not_first|].
    split; [exact edge_bad_instance|exact edge_bad_refused]. }
  exact (preprocess_stops_at_first_failure (lb := Concrete.offline)
           (Concrete.transformer None) Concrete.edge_world (VDict 8%positive) _
           [1%positive] 3%positive Concrete.bad_instance binascii_Error
           [VDict 2%positive] None
           edge_request_contents edge_request_instances (NoDup_singleton _)
           edge_gray_holds edge_bad_not_first edge_bad_instance edge_bad_refused).
Defined.

(** X12 on the request of the examples: two records, for 1 and for 2. *)
Lemma preprocess_logs_each_instance_example :
  (contents Concrete.example_world (VDict 4%positive)
   = Some {["instances" := VList (map VDict [1%positive; 2%positive])]}
   /\ ({["instances" := VList (map VDict [1%positive; 2%positive])]}
         : gmap string (value Q)) !! "instances"
      = Some (VList (map VDict [1%positive; 2%positive]))
   /\ NoDup [1%positive; 2%positive]
   /\ (forall r, r ∈ [1%positive; 2%positive] ->
         exists pic,
           holds_image (lb := Concrete.offline) Concrete.example_world (VDict r) pic))
  /\ map log_msg
         (log (snd (ImageTransformer.preprocess (lb := Concrete.offline)
                      (Concrete.transformer None) (VDict 4%positive) None
                      Concrete.example_world)))
     = [VDict 1%positive; VDict 2%positive].
Proof.
  split.
  { split; [exact example_request_contents|]. split; [exact example_request_instances|].
    split; [exact example_instances_distinct|exact example_instances_hold]. }
  exact (preprocess_logs_each_instance (lb := Concrete.offline) (Concrete.transformer None)
           Concrete.example_world (VDict 4%positive) _ [1%positive; 2%positive] None
           example_request_contents example_request_instances
           example_instances_distinct example_instances_hold).
Defined.

(** X13 on an upstream that cannot be reached. *)
Lemma explain_client_failure_example :
  (ImageTransformer.explainer_host (Concrete.transformer (Some "explainer:8080"))
   = Some "explainer:8080"
   /\ json_dumps (Libs := Concrete.offline) (heap Concrete.example_world) (VDict 4%positive)
      = Returns Concrete.example_payload
   /\ fetch (Libs := Concrete.offline)
        {| url := "http://explainer:8080/v1/models/mnist:explain";
           method := "POST";
           request_timeout := 100;
           body := Concrete.example_payload;
           headers := None |}
      = Raises (HTTPClientError "no upstream"))
  /\ fst (ImageTransformer.explain (lb := Concrete.offline)
            (Concrete.transformer (Some "explainer:8080")) (VDict 4%positive) None
            Concrete.example_world)
     = Raises (HTTPClientError "no upstream")
  /\ sent (snd (ImageTransformer.explain (lb := Concrete.offline)
                  (Concrete.transformer (Some "explainer:8080")) (VDict 4%positive) None
                  Concrete.example_world))
     = [{| url := "http://explainer:8080/v1/models/mnist:explain";
           method := "POST";
           request_timeout := 100;
           body := Concrete.example_payload;
           headers := None |}].
Proof.
  split; [split; [reflexivity|split; [exact (example_payload_dumps _)|reflexivity]]|].
  exact (explain_client_failure (lb := Concrete.offline)
           (Concrete.transformer (Some "explainer:8080")) "explainer:8080"
           (VDict 4%positive) None Concrete.example_world Concrete.example_payload
           (HTTPClientError "no upstream") eq_refl (example_payload_dumps _) eq_refl).
Defined.

Lemma edge_circular_dumps :
  json_dumps (Libs := Concrete.offline) (heap Concrete.edge_world) (VDict 12%positive)
  = Raises ValueError.
Proof. vm_compute. reflexivity. Qed.

(** X14 on the dictionary that holds itself. *)
Lemma explain_unserializable_example :
  (ImageTransformer.explainer_host (Concrete.transformer (Some "explainer:8080"))
   = Some "explainer:8080"
   /\ json_dumps (Libs := Concrete.offline) (heap Concrete.edge_world) (VDict 12%positive)
      = Raises ValueError)
  /\ ImageTransformer.explain (lb := Concrete.offline)
       (Concrete.transformer (Some "explainer:8080")) (VDict 12%positive) None
       Concrete.edge_world
     = (Raises ValueError,
        {| heap := heap Concrete.edge_world;
           log := [info (VStr "Inside Image Transformer explain %s")
                        [VStr "http://explainer:8080/v1/models/mnist:explain"]
                        (heap Concrete.edge_world)];
           sent := [] |}).
Proof.
  split; [split; [reflexivity|exact edge_circular_dumps]|].
  exact (explain_unserializable_sends_nothing (lb := Concrete.offline)
           (Concrete.transformer (Some "explainer:8080")) "explainer:8080"
           (VDict 12%positive) None Concrete.edge_world ValueError
           eq_refl edge_circular_dumps).
Defined.

(** ** Malformed base64 and the decoder *)

(** C5 as stated fails on malformed base64 that the decoder accepts: the
    text below has a character outside the alphabet, a space and text after
    the padding, so it is not well-formed base64, yet [base64.b64decode]
    skips all of that, the bytes are the grayscale picture, and the
    normalizer returns and overwrites [data]. *)
Lemma image_transform_accepts_malformed_base64 :
  malformed_base64 (VStr (F := Q) Concrete.junk_gray_pair)
  /\ heap Concrete.junk_world !! 1%positive = Some Concrete.junk_instance
  /\ Concrete.junk_instance !! "data" = Some (VStr Concrete.junk_gray_pair)
  /\ b64decode (lb := Concrete.offline) (VStr (F := Q) Concrete.junk_gray_pair)
     = b64decode (lb := Concrete.offline) (VStr (F := Q) Concrete.gray_pair)
  /\ fst (image_transform (lb := Concrete.offline) (VDict 1%positive) Concrete.junk_world)
     = Returns (VDict 1%positive)
  /\ heap (snd (image_transform (lb := Concrete.offline) (VDict 1%positive)
                                Concrete.junk_world)) !! 1%positive
     = Some (<["data" := VList [VList [VList [VFloat (-1307 # 3081);
                                              VFloat (8693 # 3081)]]]]>
               Concrete.junk_instance).
Proof.
  split; [exists Concrete.junk_gray_pair; split; [reflexivity|vm_compute; reflexivity]|].
  assert (Hr : heap Concrete.junk_world !! 1%positive = Some Concrete.junk_instance)
    by (vm_compute; reflexivity).
  assert (Hdata : Concrete.junk_instance !! "data" = Some (VStr Concrete.junk_gray_pair))
    by (vm_compute; reflexivity).
  split; [exact Hr|]. split; [exact Hdata|].
  split; [vm_compute; reflexivity|].
  rewrite (image_transform_store (lb := Concrete.offline) _ _ _ Hr).
  rewrite (normalizer_image (lb := Concrete.offline) Concrete.junk_instance
             (VStr Concrete.junk_gray_pair) Concrete.gray_image Hdata).
  - cbn [fst snd heap]. split; [reflexivity|]. apply lookup_insert_eq.
  - exists Concrete.junk_gray_pair. eexists. split; [reflexivity|].
    split; vm_compute; reflexivity.
Qed.

(** The string of the specification's example is malformed as well; it is
    one of those the decoder refuses. *)
Lemma not_base64_malformed : malformed_base64 (VStr (F := Q) "not-base64!!").
Proof. exists "not-base64!!". split; [reflexivity|vm_compute; reflexivity]. Qed.

(** What the decoder of the examples refuses among the texts without
    padding: those whose number of base64 digits is not a multiple of four.
    Characters outside the alphabet do not count and are not an error. *)
Lemma a2b_loop_unpadded (cs : list ascii) :
  forall (q l p : N) (out : list byte),
  (q < 4)%N ->
  forallb (fun c => negb (Ascii.eqb c "="%char)) cs = true ->
  ((q + N.of_nat (length (List.filter
                            (fun c => Concrete.is_Some_b (Concrete.b64_digit c)) cs)))
     mod 4 <> 0)%N ->
  Concrete.a2b_loop cs q l p out = None.
Proof.
  induction cs as [|c cs IH]; intros q l p out Hq Hpad Hmod.
  - cbn in Hmod |- *. rewrite N.add_0_r in Hmod.
    destruct (N.eqb_spec q 0) as [->|Hne]; [|reflexivity].
    exfalso. apply Hmod. reflexivity.
  - cbn [forallb] in Hpad. apply andb_true_iff in Hpad as [Hc Hpad].
    apply negb_true_iff in Hc. cbn [Concrete.a2b_loop]. rewrite Hc.
    cbn [List.filter] in Hmod.
    destruct (Concrete.b64_digit c) as [v|] eqn:Hd; cbn [Concrete.is_Some_b] in Hmod.
    + cbn [length] in Hmod. rewrite Nat2N.inj_succ in Hmod.
      set (n := N.of_nat (length (List.filter
                                    (fun c => Concrete.is_Some_b (Concrete.b64_digit c))
                                    cs))) in *.
      assert (Hcases : q = 0%N \/ q = 1%N \/ q = 2%N \/ q = 3%N) by lia.
      destruct Hcases as [-> | [-> | [-> | -> ] ] ]; cbn [N.eqb Pos.eqb];
        apply IH; try lia; try exact Hpad; fold n.
      * replace (1 + n)%N with (0 + N.succ n)%N by lia. exact Hmod.
      * replace (2 + n)%N with (1 + N.succ n)%N by lia. exact Hmod.
      * replace (3 + n)%N with (2 + N.succ n)%N by lia. exact Hmod.
      * intros Hz. apply Hmod.
        replace (3 + N.succ n)%N with (0 + n + 1 * 4)%N by lia.
        rewrite N.Div0.mod_add. exact Hz.
    + apply IH; assumption.
Qed.

Lemma unpadded_text_refused (up : HTTPRequest -> outcome HTTPResponse) (s : string) :
  forallb (fun c => negb (Ascii.eqb c "="%char)) (list_ascii_of_string s) = true ->
  (N.of_nat (length (List.filter (fun c => Concrete.is_Some_b (Concrete.b64_digit c))
                                 (list_ascii_of_string s)))
     mod 4 <> 0)%N ->
  refused_base64 (lb := Concrete.libs up) (VStr (F := Q) s).
Proof.
  intros Hpad Hmod.
  assert (Hloop : Concrete.binascii_a2b_base64 s = None).
  { unfold Concrete.binascii_a2b_base64.
    apply a2b_loop_unpadded; [lia|exact Hpad|].
    rewrite N.add_0_l. exact Hmod. }
  exists s.
  exists (if forallb (fun c => (nat_of_ascii c <? 128)%nat) (list_ascii_of_string s)
          then binascii_Error else ValueError).
  split; [reflexivity|].
  cbn [b64decode a2b_base64 Concrete.libs]. rewrite Hloop.
  destruct (forallb (fun c => (nat_of_ascii c <? 128)%nat) (list_ascii_of_string s));
    reflexivity.
Qed.
